(** * go-service: the authentication and request-middleware pipeline

    A shallow embedding of the sales-api middleware chain
    (foundation/web, business/web/mid, business/sys/auth and
    business/sys/validate) together with the properties of its
    specification.

    Handlers are functions in a state monad over a [World] that holds
    everything a request can observe or change: the request-scoped
    [Values] objects (by address, since Go passes [&v]), the response
    writers, the logger output, the clock and the shutdown channel. *)

From Stdlib Require Import ZArith Ascii Lia.
From stdpp Require Import base option list strings gmap.

Open Scope Z_scope.

(* ===================================================================== *)
(** * Go's [strings] package, as far as the middleware uses it           *)
(* ===================================================================== *)

Module GoStrings.

(** [strings.Split(s, sep)] for a one-byte separator, which is the only
    way the source calls it ([strings.Split(authStr, " ")]).  The result
    always has at least one element; [n] separators give [n+1] parts,
    empty parts included. *)
Fixpoint Split (s : string) (sep : ascii) : list string :=
  match s with
  | EmptyString => [EmptyString]
  | String a rest =>
      if Ascii.eqb a sep then EmptyString :: Split rest sep
      else match Split rest sep with
           | part :: parts => String a part :: parts
           | [] => [String a EmptyString]
           end
  end.

(** One byte of [strings.ToLower]: the upper-case ASCII letters move to
    lower case, every other byte stays. *)
Definition lower_byte (a : ascii) : ascii :=
  let n := N_of_ascii a in
  if ((65 <=? n) && (n <=? 90))%N then ascii_of_N (n + 32) else a.

(** [strings.ToLower] on the bytes of the string.  Go maps runes, not
    bytes; the two differ only outside ASCII, and the source only ever
    compares the result with the ASCII word [bearer]. *)
Fixpoint ToLower (s : string) : string :=
  match s with
  | EmptyString => EmptyString
  | String a rest => String (lower_byte a) (ToLower rest)
  end.

(** [strings.Join(elems, sep)]. *)
Fixpoint Join (elems : list string) (sep : string) : string :=
  match elems with
  | [] => ""
  | [e] => e
  | e :: rest => e +:+ sep +:+ Join rest sep
  end.

End GoStrings.

(* ===================================================================== *)
(** * Error values                                                       *)
(* ===================================================================== *)

(** One field of a validation failure ([validate.FieldError]). *)
Record FieldError := mkFieldError {
  Field : string;
  FieldMsg : string;
}.

(** The values of Go's [error] interface that travel through the chain:
    plain errors ([errors.New], [fmt.Errorf] without [%w]), errors that
    wrap another one ([fmt.Errorf("...: %w", err)], as the tooling does),
    and the three error types the middleware tells apart. *)
Inductive error : Type :=
  | errorString (s : string)
  | wrapError (msg : string) (err : error)
  | FieldErrors (fields : list FieldError)
  | RequestError (Err : error) (Status : Z)
  | shutdownError (Message : string).

(** The double-quote byte, for rendering JSON. *)
Definition dquote : string := String (ascii_of_N 34) EmptyString.

Definition quoted (s : string) : string := dquote +:+ s +:+ dquote.

(** Modelled from the spec: [validate.FieldErrors.Error] is not part of
    the sources at hand.  The spec gives the wire shape of the per-field
    messages, [[{"field": string, "error": string}, ...]]; string escaping
    is left to the JSON encoder and not modelled. *)
Definition marshalFieldError (fe : FieldError) : string :=
  "{" +:+ quoted "field" +:+ ":" +:+ quoted (Field fe) +:+ ","
      +:+ quoted "error" +:+ ":" +:+ quoted (FieldMsg fe) +:+ "}".

Definition marshalFieldErrors (fields : list FieldError) : string :=
  "[" +:+ GoStrings.Join (map marshalFieldError fields) "," +:+ "]".

(** The [Error() string] method of each error value.  A [RequestError]
    reports the message of the error it carries. *)
Fixpoint Error (e : error) : string :=
  match e with
  | errorString s => s
  | wrapError msg err => msg +:+ ": " +:+ Error err
  | FieldErrors fields => marshalFieldErrors fields
  | RequestError err _ => Error err
  | shutdownError msg => msg
  end.

(* ===================================================================== *)
(** * Claims (business/sys/auth)                                         *)
(* ===================================================================== *)

Definition RoleAdmin : string := "ADMIN".
Definition RoleUser : string := "USER".

(** [auth.Claims]: the registered JWT claims the service fills in
    (issuer, subject, expiry and issue time as Unix seconds) and the
    roles of the user. *)
Record Claims := mkClaims {
  Issuer : string;
  Subject : string;
  ExpiresAt : Z;
  IssuedAt : Z;
  Roles : list string;
}.

(** The inner loop of [Authorized]: is [has] one of the wanted roles? *)
Fixpoint wanted (has : string) (roles : list string) : bool :=
  match roles with
  | [] => false
  | want :: rest => if String.eqb has want then true else wanted has rest
  end.

Fixpoint anyWanted (held roles : list string) : bool :=
  match held with
  | [] => false
  | has :: rest => if wanted has roles then true else anyWanted rest roles
  end.

(** Modelled from the spec: [Claims.Authorized] is not part of the sources
    at hand (only its call in [mid.Authorize] is).  The spec: true iff the
    claims' role set intersects the required roles; a membership test
    only, insertion order irrelevant.  It is written as the two nested
    loops over the role slices that return at the first common role. *)
Definition Authorized (c : Claims) (roles : list string) : bool :=
  anyWanted (Roles c) roles.

(* ===================================================================== *)
(** * The validate package: request errors and the error response        *)
(* ===================================================================== *)

Definition StatusBadRequest : Z := 400.
Definition StatusUnauthorized : Z := 401.
Definition StatusForbidden : Z := 403.
Definition StatusInternalServerError : Z := 500.

(** [http.StatusText] at the codes the service answers with. *)
Definition StatusText (code : Z) : string :=
  if code =? 400 then "Bad Request"
  else if code =? 401 then "Unauthorized"
  else if code =? 403 then "Forbidden"
  else if code =? 404 then "Not Found"
  else if code =? 500 then "Internal Server Error"
  else "".

(** [validate.NewRequestError(err, status)]: wraps a provided error with
    an HTTP status code. *)
Definition NewRequestError (err : error) (status : Z) : error :=
  RequestError err status.

(** Modelled from the spec: [validate.Cause] is not part of the sources at
    hand.  It gives the error that [Errors] classifies: the layers added
    with [%w] are removed until an error that wraps nothing in that way is
    reached.  A [RequestError] is such a root, although it carries an
    error: the spec has it classified by its own status code. *)
Fixpoint Cause (err : error) : error :=
  match err with
  | wrapError _ inner => Cause inner
  | _ => err
  end.

(** [validate.ErrorResponse]: the form of the error answer sent to the
    client, [{"error": ..., "fields": ...}]. *)
Record ErrorResponse := mkErrorResponse {
  er_Error : string;
  er_Fields : string;
}.

(* ===================================================================== *)
(** * The world a request runs in                                        *)
(* ===================================================================== *)

(** [web.Values]: the state kept for each request. *)
Record Values := mkValues {
  TraceID : string;
  Now : Z;
  StatusCode : Z;
}.

(** Addresses of [Values] objects: the base handler stores [&v] in the
    context, and [Respond] and [Logger] reach the same object through
    it. *)
Definition loc := nat.

(** A [context.Context] as the chain sees it: the span that tracing put
    there, the value under the web package's key and the value under the
    auth package's key.  The keys are of unexported types, so no other
    package can set or shadow them. *)
Record Context := mkContext {
  ctxTraceID : string;
  ctxValues : option loc;
  ctxClaims : option Claims;
}.

(** What a handler hands to [web.Respond]. *)
Inductive Payload :=
  | ErrorPayload (er : ErrorResponse)
  | DataPayload (json : string).

Record Response := mkResponse {
  respStatus : Z;
  respBody : Payload;
}.

(** The state behind an [http.ResponseWriter]: the responses written to
    it so far, and the error its [Write] reports (a connection that went
    away, for one). *)
Record WriterState := mkWriterState {
  written : list Response;
  writeErr : option error;
}.

Global Instance WriterState_inhabited : Inhabited WriterState :=
  populate (mkWriterState [] None).

(** An [http.ResponseWriter] is passed around by reference. *)
Definition ResponseWriter := nat.

(** [*zap.SugaredLogger], by the name of the service it logs for. *)
Definition SugaredLogger := string.

Inductive Level := InfoLevel | ErrorLevel.

Inductive LogValue :=
  | LogString (s : string)
  | LogInt (n : Z)
  | LogError (e : error).

Record LogEntry := mkLogEntry {
  logLogger : SugaredLogger;
  logLevel : Level;
  logMsg : string;
  logFields : list (string * LogValue);
}.

Inductive Signal := SIGTERM.

Record World := mkWorld {
  heap : list Values;
  writers : gmap ResponseWriter WriterState;
  logs : list LogEntry;
  clock : Z;
  shutdown : list Signal;
}.

(** An [*http.Request]: what the middleware reads of it. *)
Record Request := mkRequest {
  Method : string;
  URLPath : string;
  RemoteAddr : string;
  Header : gmap string (list string);
  reqContext : Context;
}.

(** ** The state monad of handlers *)

Definition M (A : Type) : Type := World -> A * World.

Definition ret {A} (a : A) : M A := fun s => (a, s).

Definition bind {A B} (c : M A) (k : A -> M B) : M B :=
  fun s => let '(a, s') := c s in k a s'.

Notation "'let*' x ':=' c 'in' k" := (bind c (fun x => k))
  (at level 10, x name, c at level 100, k at level 200).

(** [&v]: a fresh [Values] object. *)
Definition newValues (v : Values) : M loc :=
  fun s => (length (heap s),
            mkWorld (heap s ++ [v]) (writers s) (logs s) (clock s) (shutdown s)).

(** Reading through a [*Values]. *)
Definition loadValues (l : loc) : M Values :=
  fun s => (default (mkValues "" 0 0) (heap s !! l), s).

(** [v.StatusCode = statusCode] through a [*Values]. *)
Definition storeStatusCode (l : loc) (statusCode : Z) : M unit :=
  fun s =>
    let v := default (mkValues "" 0 0) (heap s !! l) in
    (tt, mkWorld (<[l := mkValues (TraceID v) (Now v) statusCode]> (heap s))
                 (writers s) (logs s) (clock s) (shutdown s)).

(** [time.Now()]. *)
Definition timeNow : M Z := fun s => (clock s, s).

(** [w.WriteHeader(statusCode)] followed by [w.Write(body)]: the writer
    receives the response and reports its error, if it has one. *)
Definition writeResponse (w : ResponseWriter) (statusCode : Z) (body : Payload)
  : M (option error) :=
  fun s =>
    let ws := writers s !!! w in
    (writeErr ws,
     mkWorld (heap s)
             (<[w := mkWriterState (written ws ++ [mkResponse statusCode body])
                                   (writeErr ws)]> (writers s))
             (logs s) (clock s) (shutdown s)).

Definition emit (e : LogEntry) : M unit :=
  fun s => (tt, mkWorld (heap s) (writers s) (logs s ++ [e]) (clock s) (shutdown s)).

(** [log.Infow(msg, keysAndValues...)] and [log.Errorw]. *)
Definition Infow (log : SugaredLogger) (msg : string)
    (kv : list (string * LogValue)) : M unit :=
  emit (mkLogEntry log InfoLevel msg kv).

Definition Errorw (log : SugaredLogger) (msg : string)
    (kv : list (string * LogValue)) : M unit :=
  emit (mkLogEntry log ErrorLevel msg kv).

(** [a.shutdown <- syscall.SIGTERM]. *)
Definition sendShutdown (sig : Signal) : M unit :=
  fun s => (tt, mkWorld (heap s) (writers s) (logs s) (clock s) (shutdown s ++ [sig])).

(* ===================================================================== *)
(** * Request headers (net/http)                                         *)
(* ===================================================================== *)

Definition upper_byte (a : ascii) : ascii :=
  let n := N_of_ascii a in
  if ((97 <=? n) && (n <=? 122))%N then ascii_of_N (n - 32) else a.

(** [textproto.CanonicalMIMEHeaderKey] on a key made of letters, digits
    and hyphens: the first letter and every letter after a hyphen in upper
    case, the others in lower case. *)
Fixpoint canonicalFrom (upper : bool) (key : string) : string :=
  match key with
  | EmptyString => EmptyString
  | String a rest =>
      String (if upper then upper_byte a else GoStrings.lower_byte a)
             (canonicalFrom (Ascii.eqb a "-") rest)
  end.

Definition CanonicalMIMEHeaderKey (key : string) : string :=
  canonicalFrom true key.

(** [r.Header.Get(key)]: the first value stored under the canonical form
    of the key, the empty string when there is none. *)
Definition Header_Get (h : gmap string (list string)) (key : string) : string :=
  match h !! CanonicalMIMEHeaderKey key with
  | Some (v :: _) => v
  | _ => ""
  end.

(* ===================================================================== *)
(** * The web package (foundation/web)                                   *)
(* ===================================================================== *)

(** A [Handler] handles an http request within the framework. *)
Definition Handler : Type := Context -> ResponseWriter -> Request -> M (option error).

(** A [Middleware] runs code before and after another handler. *)
Definition Middleware : Type := Handler -> Handler.

(** What the router stores for a route: [func(w, r)]. *)
Definition HandlerFunc : Type := ResponseWriter -> Request -> M unit.

(** Modelled from the spec: [wrapMiddleware] is not part of the sources at
    hand (only its two calls in [App.Handle] are).  The spec: given
    middlewares [m1, ..., mn] in that order and a base handler [h], the
    effective handler is [m1(m2(...mn(h)))], built by a right fold when
    the route is registered. *)
Definition wrapMiddleware (mw : list Middleware) (handler : Handler) : Handler :=
  foldr (fun m h => m h) handler mw.

(** [context.WithValue(ctx, key, &v)] at the web package's key. *)
Definition withValues (ctx : Context) (l : loc) : Context :=
  mkContext (ctxTraceID ctx) (Some l) (ctxClaims ctx).

(** Modelled from the spec: [web.GetValues] is not part of the sources at
    hand.  It returns the request-scoped values stored in the context, or
    an error when there are none. *)
Definition GetValues (ctx : Context) : loc + error :=
  match ctxValues ctx with
  | Some l => inl l
  | None => inr (errorString "web value missing from context")
  end.

(** Modelled from the spec: [web.SetStatusCode] is not part of the sources
    at hand.  The request-scoped values hold the response status code;
    it is stored through the pointer kept in the context. *)
Definition SetStatusCode (ctx : Context) (statusCode : Z) : M (option error) :=
  match GetValues ctx with
  | inl l => let* _ := storeStatusCode l statusCode in ret None
  | inr err => ret (Some err)
  end.

(** Modelled from the spec: [web.Respond] is not part of the sources at
    hand.  It records the status code in the request-scoped values and
    writes one response, status and body, to the client; what the writer
    reports is returned. *)
Definition Respond (ctx : Context) (w : ResponseWriter) (data : Payload)
    (statusCode : Z) : M (option error) :=
  let* _ := SetStatusCode ctx statusCode in
  writeResponse w statusCode data.

(** [web.NewShutdownError(message)]. *)
Definition NewShutdownError (message : string) : error := shutdownError message.

(** Modelled from the spec: [web.IsShutdown] is not part of the sources at
    hand.  It tells whether the error is flagged as shutdown-triggering,
    looking through the layers added with [%w]. *)
Definition IsShutdown (err : error) : bool :=
  match Cause err with
  | shutdownError _ => true
  | _ => false
  end.

(** [web.App]: the router and the application-level middleware.  The
    shutdown channel is the [shutdown] component of the world. *)
Record App := mkApp {
  mux : gmap (string * string) HandlerFunc;
  mw : list Middleware;
}.

(** [NewApp(shutdown, mw...)]. *)
Definition NewApp (appMw : list Middleware) : App := mkApp ∅ appMw.

(** [a.SignalShutdown()]. *)
Definition SignalShutdown : M unit := sendShutdown SIGTERM.

(** The function [h] that [Handle] builds for each route: it stores the
    values of the request in the context, calls the wrapped handler and
    signals shutdown when an error comes back. *)
Definition baseHandler (handler : Handler) : HandlerFunc :=
  fun w r =>
    let ctx := reqContext r in
    let* now := timeNow in
    let* v := newValues (mkValues (ctxTraceID ctx) now 0) in
    let ctx := withValues ctx v in
    let* err := handler ctx w r in
    match err with
    | Some _ => SignalShutdown
    | None => ret tt
    end.

(** The handler chain of a route: the middleware of the route is wrapped
    around the handler first, the middleware of the application around
    that. *)
Definition routeChain (a : App) (handler : Handler) (routeMw : list Middleware)
  : Handler :=
  let handler := wrapMiddleware routeMw handler in
  let handler := wrapMiddleware (mw a) handler in
  handler.

Definition finalPath (group path : string) : string :=
  if String.eqb group "" then path else "/" +:+ group +:+ path.

(** [a.Handle(method, group, path, handler, mw...)]. *)
Definition Handle (a : App) (method group path : string) (handler : Handler)
    (routeMw : list Middleware) : App :=
  let h := baseHandler (routeChain a handler routeMw) in
  mkApp (<[(method, finalPath group path) := h]> (mux a)) (mw a).

(** [a.ServeHTTP(w, r)]: the router runs the function registered for the
    method and path of the request (path parameters are not modelled);
    for an unknown route it answers 404 itself. *)
Definition ServeHTTP (a : App) : HandlerFunc :=
  fun w r =>
    match mux a !! (Method r, URLPath r) with
    | Some h => h w r
    | None =>
        let* _ := writeResponse w 404 (DataPayload "404 page not found") in ret tt
    end.

(* ===================================================================== *)
(** * The auth package: claims in the context, token validation          *)
(* ===================================================================== *)

(** [auth.SetClaims(ctx, claims)]. *)
Definition SetClaims (ctx : Context) (claims : Claims) : Context :=
  mkContext (ctxTraceID ctx) (ctxValues ctx) (Some claims).

(** [auth.GetClaims(ctx)]. *)
Definition GetClaims (ctx : Context) : Claims + error :=
  match ctxClaims ctx with
  | Some claims => inl claims
  | None => inr (errorString "claim value missing from context")
  end.

(** [*auth.Auth], as far as the middleware uses it: its [ValidateToken]
    method, which depends on the token and on the time of the call. *)
Record Auth := mkAuth {
  ValidateToken : Z -> string -> Claims + error;
}.

(* ===================================================================== *)
(** * The middleware (business/web/mid)                                  *)
(* ===================================================================== *)

(** [%v] of a slice of strings, as [fmt] prints it. *)
Definition fmtSlice (l : list string) : string :=
  "[" +:+ GoStrings.Join l " " +:+ "]".

(** [Authenticate] validates a JWT from the [Authorization] header.  The
    validation of the token is where the time of the call enters. *)
Definition Authenticate (a : Auth) : Middleware :=
  fun handler ctx w r =>
    (* Expecting: bearer <token> *)
    let authStr := Header_Get (Header r) "authorization" in
    let parts := GoStrings.Split authStr " " in
    if negb (length parts =? 2)%nat
       || negb (String.eqb (GoStrings.ToLower (nth 0 parts "")) "bearer")
    then
      let err := errorString "expected authorization header format: bearer <token>" in
      ret (Some (NewRequestError err StatusUnauthorized))
    else
      let* now := timeNow in
      match ValidateToken a now (nth 1 parts "") with
      | inr err => ret (Some (NewRequestError err StatusUnauthorized))
      | inl claims =>
          let ctx := SetClaims ctx claims in
          handler ctx w r
      end.

(** [Authorize] validates that an authenticated user has at least one
    role from a specified list. *)
Definition Authorize (roles : list string) : Middleware :=
  fun handler ctx w r =>
    match GetClaims ctx with
    | inr _ =>
        ret (Some (NewRequestError
                     (errorString "you are not authorized for that action, no claims")
                     StatusForbidden))
    | inl claims =>
        if negb (Authorized claims roles) then
          ret (Some (NewRequestError
                       (errorString ("you are not authorized for that action, claims["
                                     +:+ fmtSlice (Roles claims) +:+ "] roles["
                                     +:+ fmtSlice roles +:+ "]"))
                       StatusForbidden))
        else handler ctx w r
    end.

(** What [Logger] does once it holds the values [p] of the request: a
    line when the request starts and one when it is completed; the second
    reads the status code that [Respond] stored. *)
Definition loggerBody (log : SugaredLogger) (p : loc) : Middleware :=
  fun handler ctx w r =>
    let* v := loadValues p in
    let* _ := Infow log "request started"
          [("traceid", LogString (TraceID v)); ("method", LogString (Method r));
           ("path", LogString (URLPath r)); ("remoteaddr", LogString (RemoteAddr r))] in
    (* Call the next handler. *)
    let* err := handler ctx w r in
    let* v := loadValues p in
    let* now := timeNow in
    let* _ := Infow log "request completed"
          [("traceid", LogString (TraceID v)); ("method", LogString (Method r));
           ("path", LogString (URLPath r)); ("remoteaddr", LogString (RemoteAddr r));
           ("statuscode", LogInt (StatusCode v)); ("since", LogInt (now - Now v))] in
    ret err.

(** [Logger]: when the context is missing the values, their error is
    returned at once. *)
Definition Logger (log : SugaredLogger) : Middleware :=
  fun handler ctx w r =>
    match GetValues ctx with
    | inr err => ret (Some err)
    | inl p => loggerBody log p handler ctx w r
    end.

(** The error response and status that [Errors] builds for an error: the
    type switch on [validate.Cause(err)]. *)
Definition errorResponse (err : error) : ErrorResponse * Z :=
  match Cause err with
  | FieldErrors fields =>
      (mkErrorResponse "data validation error" (Error (FieldErrors fields)),
       StatusBadRequest)
  | RequestError e status =>
      (mkErrorResponse (Error (RequestError e status)) "", status)
  | _ =>
      (mkErrorResponse (StatusText StatusInternalServerError) "",
       StatusInternalServerError)
  end.

(** What [Errors] does once it holds the values [p] of the request: it
    runs the next handler and catches any propagated error. *)
Definition errorsBody (log : SugaredLogger) (p : loc) : Middleware :=
  fun handler ctx w r =>
    let* res := handler ctx w r in
    match res with
    | Some err =>
        (* Log the error. *)
        let* v := loadValues p in
        let* _ := Errorw log "ERROR"
              [("traceid", LogString (TraceID v)); ("ERROR", LogError err)] in
        (* Build out the error response. *)
        let '(er, status) := errorResponse err in
        (* Respond with the error back to the client. *)
        let* werr := Respond ctx w (ErrorPayload er) status in
        match werr with
        | Some err' => ret (Some err')
        | None =>
            (* A shutdown error goes back to the base handler. *)
            if IsShutdown err then ret (Some err) else ret None
        end
    | None =>
        (* Nothing to handle. *)
        ret None
    end.

(** [Errors] handles errors coming out of the call chain.  When the
    context is missing the values, it asks for the service to be shut
    down. *)
Definition Errors (log : SugaredLogger) : Middleware :=
  fun handler ctx w r =>
    match GetValues ctx with
    | inr _ => ret (Some (NewShutdownError "web value missing from context"))
    | inl p => errorsBody log p handler ctx w r
    end.

(** A middleware that leaves a marker in the log before and after the
    next handler, and a handler that leaves one marker: the probes for
    the order of execution. *)
Definition mark (name : string) : M unit :=
  emit (mkLogEntry "TEST" InfoLevel name []).

Definition Marker (name : string) : Middleware :=
  fun handler ctx w r =>
    let* _ := mark (name +:+ "-pre") in
    let* err := handler ctx w r in
    let* _ := mark (name +:+ "-post") in
    ret err.

Definition markedHandler (name : string) (result : option error) : Handler :=
  fun _ _ _ => let* _ := mark name in ret result.

(* ===================================================================== *)
(** * The routes of the service (app/services/sales-api/handlers)        *)
(* ===================================================================== *)

(** [Handlers.Test]: the handler at the centre of the onion.  [n] is the
    number that [rand.Intn(100)] draws for the request: an even draw
    fails with an error that is not to be trusted, an odd one answers with
    the status document. *)
Definition Test (n : Z) : Handler :=
  fun ctx w r =>
    if Z.rem n 2 =? 0 then ret (Some (errorString "untrusted error"))
    else
      let status := "{" +:+ quoted "Status" +:+ ":" +:+ quoted "OK" +:+ "}" in
      Respond ctx w (DataPayload status) 200.

(** [APIMuxConfig]: the systems the handlers need (the shutdown channel
    is part of the world). *)
Record APIMuxConfig := mkAPIMuxConfig {
  Log : SugaredLogger;
  AuthOf : Auth;
}.

(** [v1]: the routes of version 1.  The two test routes are bound here;
    the user routes are bound in the same way, with the same middleware,
    to handlers of the user group. *)
Definition v1 (app : App) (cfg : APIMuxConfig) (n : Z) : App :=
  let version := "v1" in
  let app := Handle app "GET" version "/test" (Test n) [] in
  let app := Handle app "GET" version "/testauth" (Test n)
                    [Authenticate (AuthOf cfg); Authorize ["ADMIN"]] in
  app.

(** [APIMux]: the application with its middleware, from outer to inner.
    [Metrics] and [Panics] are taken as given. *)
Definition APIMux (cfg : APIMuxConfig) (Metrics Panics : Middleware) (n : Z) : App :=
  let app := NewApp [Logger (Log cfg); Errors (Log cfg); Metrics; Panics] in
  v1 app cfg n.

(* ===================================================================== *)
(** * The token codec                                                    *)
(* ===================================================================== *)

Module TokenCodec.

(** [rsa.PublicKey] and [rsa.PrivateKey]: the modulus with the public
    exponent, and the private exponent next to the public part. *)
Record PublicKey := mkPublicKey { N : Z; E : Z }.
Record PrivateKey := mkPrivateKey { Public : PublicKey; D : Z }.

(** The header of a signed token carries the algorithm and the key ID. *)
Record TokenHeader := mkTokenHeader { alg : string; kid : string }.

(** Modelled from the spec: the signed token, the wire representation
    of claims: the header carries key ID and algorithm, the payload
    carries the claims, the trailer carries the signature.  Its
    rendering as a compact string is left to the JWT library. *)
Record SignedToken := mkSignedToken {
  header : TokenHeader;
  payload : Claims;
  signature : Z;
}.

Inductive CodecError :=
  | EncodingError
  | VerificationError
  | UnknownKeyError
  | SignatureError
  | ExpiredTokenError.

(** The codec errors as values of [error]. *)
Definition errorOf (e : CodecError) : error :=
  errorString
    match e with
    | EncodingError => "claims are structurally invalid"
    | VerificationError => "signing method is not allowed"
    | UnknownKeyError => "key id is unknown"
    | SignatureError => "signature is invalid"
    | ExpiredTokenError => "token is expired"
    end.

(** The algorithms a token may name ([ValidMethods] of the parser in
    [GenToken]). *)
Definition ValidMethods : list string := ["RS256"].

(** Modelled from the spec: claims are structurally invalid when, for
    one, the subject is missing. *)
Definition structurallyValid (c : Claims) : bool :=
  negb (String.eqb (Subject c) "").

Section Codec.

(** The digest of the signing input (header and payload), a number.
    Nothing is asked of it. *)
Variable digest : TokenHeader -> Claims -> Z.

(** Modelled from the spec: an RSA-based signature scheme.  Signing
    raises the digest to the private exponent, verifying raises the
    signature to the public exponent and compares with the digest. *)
Definition sign (key : PrivateKey) (m : Z) : Z :=
  ((m mod N (Public key)) ^ D key) mod N (Public key).

Definition verify (key : PublicKey) (m sig : Z) : bool :=
  ((sig ^ E key) mod N key) =? (m mod N key).

(** Modelled from the spec: [encode(claims, signingKey, keyID)] puts
    the claims into the payload, the key ID into the header and signs
    with the signing key; it fails on structurally invalid claims. *)
Definition encode (claims : Claims) (signingKey : PrivateKey) (keyID : string)
  : SignedToken + CodecError :=
  if structurallyValid claims then
    let h := mkTokenHeader "RS256" keyID in
    inl (mkSignedToken h claims (sign signingKey (digest h claims)))
  else inr EncodingError.

(** Modelled from the spec: [decode(token, keyLookup)] reads key ID
    and algorithm from the header; fails when the algorithm is not in
    the allowed set; looks the key up and fails when there is none;
    verifies the signature and fails when it is invalid; fails when
    the current time is after the expiry; returns the claims
    otherwise. *)
Definition decode (now : Z) (token : SignedToken)
    (keyLookup : string -> option PublicKey) : Claims + CodecError :=
  if negb (bool_decide (alg (header token) ∈ ValidMethods)) then
    inr VerificationError
  else
    match keyLookup (kid (header token)) with
    | None => inr UnknownKeyError
    | Some key =>
        if negb (verify key (digest (header token) (payload token))
                        (signature token))
        then inr SignatureError
        else if now >? ExpiresAt (payload token) then inr ExpiredTokenError
        else inl (payload token)
    end.

(** [GenToken] of the admin tooling, from the private key it has read
    and the time of the call: it signs the claims of the user
    [user-id-123], valid for a year, under the key ID of the key file,
    and parses the token again with the public part of the key.  Nil is
    success. *)
Definition GenToken (privateKey : PrivateKey) (now : Z) : option error :=
  let claims :=
    mkClaims "service project" "user-id-123" (now + 8760 * 3600) now ["ADMIN"] in
  match encode claims privateKey "54bb2165-71e1-41a6-af3e-7da4a0e1e2c1" with
  | inr err => Some (errorOf err)
  | inl signedJwt =>
      let keyFunc := fun _ : string => Some (Public privateKey) in
      match decode now signedJwt keyFunc with
      | inr err => Some (wrapError "parsing token" (errorOf err))
      | inl _ => None
      end
  end.

End Codec.

(** A sound RSA key: on every residue of the modulus the public
    exponent undoes the private one. *)
Definition soundKey (key : PrivateKey) : Prop :=
  0 < N (Public key) /\
  forall x, 0 <= x < N (Public key) ->
            ((x ^ D key) mod N (Public key)) ^ E (Public key) mod N (Public key) = x.

(** The public key that matches a private key is its public part. *)
Definition matching (priv : PrivateKey) (pub : PublicKey) : Prop :=
  pub = Public priv /\ soundKey priv.

(** A small key pair: modulus 3 * 11, exponents 3 and 7. *)
Definition toyPrivate : PrivateKey := mkPrivateKey (mkPublicKey 33 3) 7.
Definition toyPublic : PublicKey := Public toyPrivate.

(** A key store with one key ([keystore.NewMap]). *)
Definition oneKey (keyID : string) (key : PublicKey) : string -> option PublicKey :=
  fun k => if String.eqb k keyID then Some key else None.

(** A digest for the examples: the length of the subject and the
    expiry. *)
Definition toyDigest (h : TokenHeader) (c : Claims) : Z :=
  Z.of_nat (String.length (Subject c)) + ExpiresAt c.

End TokenCodec.

(* ===================================================================== *)
(** * Vocabulary of the specification                                    *)
(* ===================================================================== *)

(** The world after more log entries. *)
Definition addLogs (s : World) (es : list LogEntry) : World :=
  mkWorld (heap s) (writers s) (logs s ++ es) (clock s) (shutdown s).

Definition markEntry (name : string) : LogEntry :=
  mkLogEntry "TEST" InfoLevel name [].

(** The order of execution the spec asks of markers [names] around a
    handler [h]: the pre-markers front to back, the handler, the
    post-markers back to front. *)
Definition onionOrder (names : list string) (h : string) : list string :=
  map (fun n => n +:+ "-pre") names ++ [h] ++ rev (map (fun n => n +:+ "-post") names).

(** A string without a space. *)
Fixpoint noSpace (s : string) : Prop :=
  match s with
  | EmptyString => True
  | String a rest => a <> " "%char /\ noSpace rest
  end.

(** [a] is the letter [b], or the upper-case letter whose lower case is
    [b]. *)
Definition sameLetter (a b : ascii) : Prop :=
  a = b \/
  ((65 <= N_of_ascii a)%N /\ (N_of_ascii a <= 90)%N /\
   (N_of_ascii a + 32)%N = N_of_ascii b).

(** [s] spells the lower-case word [word], whatever the case of its
    letters. *)
Fixpoint spelledAs (s word : string) : Prop :=
  match s, word with
  | EmptyString, EmptyString => True
  | String a s', String b word' => sameLetter a b /\ spelledAs s' word'
  | _, _ => False
  end.

(** A word of lower-case letters. *)
Fixpoint lowerCaseWord (word : string) : Prop :=
  match word with
  | EmptyString => True
  | String b rest =>
      ((97 <= N_of_ascii b)%N /\ (N_of_ascii b <= 122)%N) /\ lowerCaseWord rest
  end.

(** The header the spec asks for: exactly two parts separated by one
    space, the first of which is the word [bearer] in any case. *)
Definition bearerFormat (authStr : string) : Prop :=
  exists scheme token,
    authStr = scheme +:+ " " +:+ token /\
    noSpace scheme /\ noSpace token /\ spelledAs scheme "bearer".

(** The test that [Authenticate] makes on the header, on its own. *)
Definition headerRejected (authStr : string) : bool :=
  let parts := GoStrings.Split authStr " " in
  negb (length parts =? 2)%nat
  || negb (String.eqb (GoStrings.ToLower (nth 0 parts "")) "bearer").

(** The error of a header that is not [bearer <token>]. *)
Definition headerFormatError : error :=
  RequestError (errorString "expected authorization header format: bearer <token>")
               StatusUnauthorized.

(** An authenticator that knows one token. *)
Definition oneTokenAuth (token : string) (claims : Claims) : Auth :=
  mkAuth (fun now tokenStr =>
            if String.eqb tokenStr token then
              if now <=? ExpiresAt claims then inl claims
              else inr (errorString "token is expired")
            else inr (errorString "signature is invalid")).

Definition noContext : Context := mkContext "" None None.

Definition emptyWorld : World := mkWorld [] ∅ [] 0 [].

Definition requestWith (authorization : list string) : Request :=
  mkRequest "GET" "/v1/testauth" "10.0.0.7:51234"
            (<["Authorization" := authorization]> ∅)
            (mkContext "4bf92f3577b34da6a3ce929d0e0e4736" None None).

Definition adminClaims : Claims :=
  mkClaims "service project" "user-id-123" 2000 1000 [RoleAdmin].

(** The [Values] object behind a pointer. *)
Definition valuesAt (p : loc) (s : World) : Values :=
  default (mkValues "" 0 0) (heap s !! p).

(** The context and the world with which the base handler of a route
    calls its chain: a new [Values] object, holding the trace ID of the
    request and the time, is in the world and the context points to it. *)
Definition requestContext (r : Request) (s : World) : Context :=
  withValues (reqContext r) (length (heap s)).

Definition requestWorld (r : Request) (s : World) : World :=
  mkWorld (heap s ++ [mkValues (ctxTraceID (reqContext r)) (clock s) 0])
          (writers s) (logs s) (clock s) (shutdown s).

(** The world after a shutdown signal. *)
Definition signalled (s : World) : World :=
  mkWorld (heap s) (writers s) (logs s) (clock s) (shutdown s ++ [SIGTERM]).

(** The two lines of [Logger]. *)
Definition startedEntry (log : SugaredLogger) (p : loc) (r : Request) (s : World)
  : LogEntry :=
  mkLogEntry log InfoLevel "request started"
    [("traceid", LogString (TraceID (valuesAt p s))); ("method", LogString (Method r));
     ("path", LogString (URLPath r)); ("remoteaddr", LogString (RemoteAddr r))].

Definition completedEntry (log : SugaredLogger) (p : loc) (r : Request) (s : World)
  : LogEntry :=
  mkLogEntry log InfoLevel "request completed"
    [("traceid", LogString (TraceID (valuesAt p s))); ("method", LogString (Method r));
     ("path", LogString (URLPath r)); ("remoteaddr", LogString (RemoteAddr r));
     ("statuscode", LogInt (StatusCode (valuesAt p s)));
     ("since", LogInt (clock s - Now (valuesAt p s)))].

(** The line of [Errors]. *)
Definition errorEntry (log : SugaredLogger) (p : loc) (err : error) (s : World)
  : LogEntry :=
  mkLogEntry log ErrorLevel "ERROR"
    [("traceid", LogString (TraceID (valuesAt p s))); ("ERROR", LogError err)].

(** The world after [Errors] has logged [err] and answered it on [w]:
    one more log line, the status code in the values of the request, one
    more response on the writer. *)
Definition answeredWorld (log : SugaredLogger) (p : loc) (w : ResponseWriter)
    (err : error) (s : World) : World :=
  let v := valuesAt p s in
  let ws := writers s !!! w in
  mkWorld (<[p := mkValues (TraceID v) (Now v) (errorResponse err).2]> (heap s))
          (<[w := mkWriterState
                    (written ws ++ [mkResponse (errorResponse err).2
                                               (ErrorPayload (errorResponse err).1)])
                    (writeErr ws)]> (writers s))
          (logs s ++ [errorEntry log p err s]) (clock s) (shutdown s).

(** What [Errors] returns after answering [err] on [w] in world [s]. *)
Definition answeredResult (w : ResponseWriter) (err : error) (s : World)
  : option error :=
  match writeErr (writers s !!! w) with
  | Some err' => Some err'
  | None => if IsShutdown err then Some err else None
  end.

(** The responses written so far to a writer. *)
Definition responses (w : ResponseWriter) (s : World) : list Response :=
  written (writers s !!! w).

(** A handler that fails with a given error and does nothing else. *)
Definition failingHandler (err : error) : Handler :=
  fun _ _ _ => ret (Some err).

Definition testRequest : Request :=
  mkRequest "GET" "/v1/test" "10.0.0.7:51234" ∅
            (mkContext "4bf92f3577b34da6a3ce929d0e0e4736" None None).

(** A world whose writer 0 has lost its connection. *)
Definition brokenPipe : error := errorString "write tcp: broken pipe".

Definition brokenWriterWorld : World :=
  mkWorld [] (<[0%nat := mkWriterState [] (Some brokenPipe)]> ∅) [] 0 [].

(** The application-level middleware of the service that is part of the
    sources at hand, in the order of [APIMux]. *)
Definition salesApp : App := NewApp [Logger "SALES-API"; Errors "SALES-API"].

(** The middleware that does nothing, to stand for [Metrics] and
    [Panics] when a request is run. *)
Definition passThrough : Middleware := fun handler => handler.

Definition userClaims : Claims :=
  mkClaims "service project" "user-id-456" 2000 1000 [RoleUser].

(** The service with an authenticator that knows the token [good] of an
    administrator, or of a plain user. *)
Definition adminService (n : Z) : App :=
  APIMux (mkAPIMuxConfig "SALES-API" (oneTokenAuth "good" adminClaims))
         passThrough passThrough n.

Definition userService (n : Z) : App :=
  APIMux (mkAPIMuxConfig "SALES-API" (oneTokenAuth "good" userClaims))
         passThrough passThrough n.

(** What the client and the shutdown channel see of a request served in
    the empty world. *)
Definition served (a : App) (r : Request) : list Response * list Signal :=
  let s := (ServeHTTP a 0%nat r emptyWorld).2 in
  (responses 0%nat s, shutdown s).

(* ===================================================================== *)
(** * The docker package (foundation/docker): reading docker inspect     *)
(* ===================================================================== *)

Module docker.

(** What [json.Unmarshal] puts into an [interface{}]. *)
#[warnings="-register-all"]
Inductive JSON :=
  | JNull
  | JBool (b : bool)
  | JNumber (n : Z)
  | JString (s : string)
  | JArray (l : list JSON)
  | JObject (m : gmap string JSON).

(** How a call on [*testing.T] ends: the function returns, [t.Fatal]
    stops the test with a message, or the runtime panics (an index out of
    range, a type assertion without the second result that fails). *)
Inductive Outcome (A : Type) :=
  | Returned (a : A)
  | Fatal (msg : string)
  | Panic.

Arguments Returned {A} a.
Arguments Fatal {A} msg.
Arguments Panic {A}.

(** The loop of [extractIPPort] over the list of bindings, from the
    values of [hostIP] and [hostPort] so far. *)
Fixpoint bindingsLoop (list : list JSON) (hostIP hostPort : string)
  : Outcome (string * string) :=
  match list with
  | [] => Returned (hostIP, hostPort)
  | l :: rest =>
      match l with
      | JObject data =>
          match data !! "HostIp" with
          | Some (JString ip) =>
              if negb (String.eqb ip "::") then
                match data !! "HostPort" with
                | Some (JString p) => bindingsLoop rest ip p
                | _ => Panic
                end
              else bindingsLoop rest ip hostPort
          | _ => Panic
          end
      | _ => Fatal "could not get network ports/tcp list data"
      end
  end.

(** [extractIPPort(t, doc, port)]: the host IP and host port under
    [NetworkSettings.Ports["<port>/tcp"]] of the first document. *)
Definition extractIPPort (doc : list (gmap string JSON)) (port : string)
  : Outcome (string * string) :=
  match doc with
  | [] => Panic
  | doc0 :: _ =>
      match doc0 !! "NetworkSettings" with
      | None => Fatal "could not get network settings"
      | Some (JObject nw) =>
          match nw !! "Ports" with
          | None => Fatal "could not get network ports settings"
          | Some (JObject ports) =>
              match ports !! (port +:+ "/tcp") with
              | None => Fatal "could not get network ports/tcp settings"
              | Some (JArray list) => bindingsLoop list "" ""
              | Some _ => Fatal "could not get network ports/tcp list settings"
              end
          | Some _ => Panic
          end
      | Some _ => Panic
      end
  end.

(** A binding as docker prints it: an object that holds the two strings,
    next to whatever else. *)
Definition isBinding (v : JSON) (b : string * string) : Prop :=
  exists data, v = JObject data /\
               data !! "HostIp" = Some (JString b.1) /\
               data !! "HostPort" = Some (JString b.2).

(** A document of docker inspect that binds [port] to [list]. *)
Definition inspected (doc : list (gmap string JSON)) (port : string)
    (list : list JSON) : Prop :=
  exists doc0 rest nw ports,
    doc = doc0 :: rest /\
    doc0 !! "NetworkSettings" = Some (JObject nw) /\
    nw !! "Ports" = Some (JObject ports) /\
    ports !! (port +:+ "/tcp") = Some (JArray list).

(** The port of the last binding that is not on the IPv6 wildcard. *)
Definition lastPort (bs : list (string * string)) : string :=
  default "" (snd <$> last (filter (fun b => b.1 <> "::") bs)).

(** The address of the last binding. *)
Definition lastIP (bs : list (string * string)) : string :=
  default "" (fst <$> last bs).

(** For the examples: a binding, and the document around a list of
    them. *)
Definition binding (ip p : string) : JSON :=
  JObject (<["HostIp" := JString ip]> (<["HostPort" := JString p]> ∅)).

Definition inspectDoc (port : string) (tcp : JSON) : list (gmap string JSON) :=
  [ <["NetworkSettings" :=
        JObject (<["Ports" := JObject (<[port +:+ "/tcp" := tcp]> ∅)]> ∅)]> ∅ ].

End docker.

(* ===================================================================== *)
(** * The database package (business/sys/database): the logged query     *)
(* ===================================================================== *)

Module database.

(** [strings.Replace(s, old, new, 1)] for a one-byte [old]: the first
    occurrence is replaced. *)
Fixpoint ReplaceFirst (s : string) (old : ascii) (new : string) : string :=
  match s with
  | EmptyString => EmptyString
  | String a rest =>
      if Ascii.eqb a old then new +:+ rest
      else String a (ReplaceFirst rest old new)
  end.

(** [strings.ReplaceAll(s, old, new)] for a one-byte [old]. *)
Fixpoint ReplaceAll (s : string) (old : ascii) (new : string) : string :=
  match s with
  | EmptyString => EmptyString
  | String a rest =>
      if Ascii.eqb a old then new +:+ ReplaceAll rest old new
      else String a (ReplaceAll rest old new)
  end.

(** [strings.TrimLeft] and [strings.TrimRight] for a cutset of one
    byte. *)
Fixpoint TrimLeft (s : string) (cut : ascii) : string :=
  match s with
  | EmptyString => EmptyString
  | String a rest => if Ascii.eqb a cut then TrimLeft rest cut else s
  end.

Fixpoint TrimRight (s : string) (cut : ascii) : string :=
  match s with
  | EmptyString => EmptyString
  | String a rest =>
      match TrimRight rest cut with
      | EmptyString => if Ascii.eqb a cut then EmptyString else String a EmptyString
      | kept => String a kept
      end
  end.

(** [strings.Trim(s, cutset)] for a cutset of one byte. *)
Definition Trim (s : string) (cut : ascii) : string :=
  TrimRight (TrimLeft s cut) cut.

Definition tab : ascii := ascii_of_N 9.
Definition newline : ascii := ascii_of_N 10.

(** A parameter of a named query, by the cases of the type switch in
    [queryString]: a string, a slice of bytes, or any other value, given
    by what [%v] prints for it. *)
Inductive Param :=
  | ParamString (v : string)
  | ParamBytes (v : string)
  | ParamOther (printed : string).

Section QueryString.

(** [fmt.Sprintf("%q", v)]: the quoted form of a string. *)
Variable Sprintf_q : string -> string.

(** The value that stands for a parameter in the logged query. *)
Definition paramValue (param : Param) : string :=
  match param with
  | ParamString v => Sprintf_q v
  | ParamBytes v => Sprintf_q v
  | ParamOther printed => printed
  end.

(** The loop of [queryString]: one [strings.Replace(query, "?", value,
    1)] for each parameter, in order. *)
Definition bindParams (query : string) (params : list Param) : string :=
  fold_left (fun query param => ReplaceFirst query "?" (paramValue param))
            params query.

(** [queryString(query, args...)], from what [sqlx.Named(query, args)]
    returned: the query with its bind variables and the parameters, or an
    error. *)
Definition queryString (named : string * list Param + error) : string :=
  match named with
  | inr err => Error err
  | inl (query, params) =>
      let query := bindParams query params in
      let query := ReplaceAll query tab "" in
      let query := ReplaceAll query newline " " in
      Trim query " "
  end.

End QueryString.

(** The database as [StatusCheck] meets it: what a ping and what the
    test query answer when they are issued at a given time, and how long a
    ping takes.  Times are in milliseconds. *)
Record DB := mkDB {
  pingAt : Z -> option error;
  pingTime : Z -> Z;
  queryAt : Z -> option error;
}.

(** The context of the call: [ctx.Err()] at a given time. *)
Record Done := mkDone {
  ErrAt : Z -> option error;
}.

Definition DeadlineExceeded : error := errorString "context deadline exceeded".

(** [context.WithTimeout(context.Background(), d)] at time [start]. *)
Definition WithTimeout (start d : Z) : Done :=
  mkDone (fun now => if start + d <=? now then Some DeadlineExceeded else None).

(** [time.Sleep(d)]. *)
Definition Sleep (d : Z) : M unit :=
  fun s => (tt, mkWorld (heap s) (writers s) (logs s) (clock s + d) (shutdown s)).

(** [db.Ping()]. *)
Definition Ping (db : DB) : M (option error) :=
  fun s => (pingAt db (clock s),
            mkWorld (heap s) (writers s) (logs s)
                    (clock s + pingTime db (clock s)) (shutdown s)).

(** How the ping loop of [StatusCheck] ends: the ping went through, the
    context is done, or the loop is still running when the fuel is
    used up. *)
Inductive LoopEnd :=
  | Pinged
  | ContextDone (err : error)
  | StillPinging.

(** The loop [for attempts := 1; ; attempts++], one ping for each unit
    of fuel. *)
Fixpoint pingLoop (fuel : nat) (ctx : Done) (db : DB) (attempts : Z) : M LoopEnd :=
  match fuel with
  | O => ret StillPinging
  | S fuel' =>
      let* pingError := Ping db in
      match pingError with
      | None => ret Pinged
      | Some _ =>
          let* _ := Sleep (attempts * 100) in
          let* now := timeNow in
          match ErrAt ctx now with
          | Some err => ret (ContextDone err)
          | None => pingLoop fuel' ctx db (attempts + 1)
          end
      end
  end.

(** [StatusCheck(ctx, db)]: nil when the database answers.  The result is
    [None] when the fuel does not suffice for the loop. *)
Definition StatusCheck (fuel : nat) (ctx : Done) (db : DB) : M (option (option error)) :=
  let* ended := pingLoop fuel ctx db 1 in
  match ended with
  | StillPinging => ret None
  | ContextDone err => ret (Some (Some err))
  | Pinged =>
      (* Make sure we didn't timeout or be cancelled. *)
      let* now := timeNow in
      match ErrAt ctx now with
      | Some err => ret (Some (Some err))
      | None => ret (Some (queryAt db now))
      end
  end.

(** A database that is not up before [ready]; a ping takes [latency]. *)
Definition readyFrom (ready latency : Z) : DB :=
  mkDB (fun now => if ready <=? now then None
                   else Some (errorString "connection refused"))
       (fun _ => latency)
       (fun _ => None).

(** The bytes of a string. *)
Fixpoint bytes (s : string) : list ascii :=
  match s with
  | EmptyString => []
  | String a rest => a :: bytes rest
  end.

(** Filling the bind variables of a query in one pass: the i-th [?] of
    the query is replaced by the i-th value, the text of the values is
    not looked at again, and a [?] without a value stays. *)
Fixpoint fill (query : string) (values : list string) : string :=
  match query with
  | EmptyString => EmptyString
  | String a rest =>
      if Ascii.eqb a "?" then
        match values with
        | v :: values' => v +:+ fill rest values'
        | [] => query
        end
      else String a (fill rest values)
  end.

(** Quoting for the examples: the string between double quotes. *)
Definition plainQuote (s : string) : string := quoted s.

End database.

(* ===================================================================== *)
(** * Properties of the claims model                                     *)
(* ===================================================================== *)

Lemma wanted_elem_of (has : string) (roles : list string) :
  wanted has roles = true <-> has ∈ roles.
Proof.
  induction roles as [|want rest IH]; simpl.
  - split; [discriminate | intros H; inversion H].
  - destruct (String.eqb has want) eqn:E.
    + apply String.eqb_eq in E. subst. split; [intros _; left | done].
    + apply String.eqb_neq in E. rewrite IH. split.
      * intros H. by right.
      * intros H. inversion H; subst; [done | assumption].
Qed.

Lemma anyWanted_common (held roles : list string) :
  anyWanted held roles = true <-> exists r, r ∈ held /\ r ∈ roles.
Proof.
  induction held as [|has rest IH]; simpl.
  - split; [discriminate | intros (r & H & _); inversion H].
  - destruct (wanted has roles) eqn:E.
    + apply wanted_elem_of in E. split; [|done].
      intros _. exists has. split; [left | done].
    + rewrite IH. split.
      * intros (r & Hr & Hw). exists r. split; [by right | done].
      * intros (r & Hr & Hw). inversion Hr; subst.
        -- apply wanted_elem_of in Hw. congruence.
        -- by exists r.
Qed.

Lemma Authorized_intersection (c : Claims) (R : list string) :
  Authorized c R = true <->
  (list_to_set (Roles c) : gset string) ∩ list_to_set R ≠ ∅.
Proof.
  unfold Authorized. rewrite anyWanted_common. split.
  - intros (r & Hc & HR) Hempty.
    assert (r ∈ (list_to_set (Roles c) : gset string) ∩ list_to_set R)
      as Hin by set_solver.
    rewrite Hempty in Hin. set_solver.
  - intros Hne. apply set_choose_L in Hne as [r Hr].
    exists r. set_solver.
Qed.

(** C8. For every claims value [c] and every non-empty list of required
    roles [R], [c.Authorized(R)] is true exactly when the role set of [c]
    and the set [R] have a common element. *)
Theorem C8_authorized_iff_roles_intersect (c : Claims) (R : list string) :
  R <> [] ->
  (Authorized c R = true <->
   (list_to_set (Roles c) : gset string) ∩ list_to_set R ≠ ∅).
Proof. intros _. apply Authorized_intersection. Qed.

Lemma C8_authorized_witness :
  [RoleAdmin] <> [] /\
  (Authorized (mkClaims "service project" "user-id-123" 200 100 [RoleUser; RoleAdmin])
              [RoleAdmin] = true <->
   (list_to_set [RoleUser; RoleAdmin] : gset string) ∩ list_to_set [RoleAdmin] ≠ ∅).
Proof.
  split; [discriminate |].
  apply (C8_authorized_iff_roles_intersect
           (mkClaims "service project" "user-id-123" 200 100 [RoleUser; RoleAdmin])
           [RoleAdmin]).
  discriminate.
Defined.

(* ===================================================================== *)
(** * The middleware chain                                               *)
(* ===================================================================== *)

Lemma addLogs_addLogs (s : World) (es fs : list LogEntry) :
  addLogs (addLogs s es) fs = addLogs s (es ++ fs).
Proof. unfold addLogs. simpl. by rewrite app_assoc. Qed.

Lemma wrapMiddleware_cons (m : Middleware) (rest : list Middleware) (h : Handler) :
  wrapMiddleware (m :: rest) h = m (wrapMiddleware rest h).
Proof. reflexivity. Qed.

Lemma wrapMiddleware_app (outer inner : list Middleware) (h : Handler) :
  wrapMiddleware outer (wrapMiddleware inner h) = wrapMiddleware (outer ++ inner) h.
Proof. unfold wrapMiddleware. by rewrite foldr_app. Qed.

Lemma routeChain_app (a : App) (handler : Handler) (routeMw : list Middleware) :
  routeChain a handler routeMw = wrapMiddleware (mw a ++ routeMw) handler.
Proof. unfold routeChain. apply wrapMiddleware_app. Qed.

Lemma Handle_lookup (a : App) (method group path : string) (handler : Handler)
    (routeMw : list Middleware) :
  mux (Handle a method group path handler routeMw) !! (method, finalPath group path)
  = Some (baseHandler (routeChain a handler routeMw)).
Proof. unfold Handle. simpl. by rewrite lookup_insert_eq. Qed.

Lemma onionOrder_cons (n : string) (names : list string) (h : string) :
  onionOrder (n :: names) h
  = (n +:+ "-pre") :: onionOrder names h ++ [n +:+ "-post"].
Proof. unfold onionOrder. simpl. by rewrite <- !app_assoc. Qed.

Lemma Marker_run (n : string) (handler : Handler) (ctx : Context)
    (w : ResponseWriter) (r : Request) (s : World) :
  Marker n handler ctx w r s
  = let '(res, s') := handler ctx w r (addLogs s [markEntry (n +:+ "-pre")]) in
    (res, addLogs s' [markEntry (n +:+ "-post")]).
Proof.
  unfold Marker, bind, mark, emit, ret. simpl.
  fold (markEntry (n +:+ "-pre")). fold (addLogs s [markEntry (n +:+ "-pre")]).
  by destruct (handler ctx w r _).
Qed.

(** Markers around a marked handler run in onion order. *)
Lemma markers_run (names : list string) (h : string) (res : option error)
    (ctx : Context) (w : ResponseWriter) (r : Request) (s : World) :
  wrapMiddleware (map Marker names) (markedHandler h res) ctx w r s
  = (res, addLogs s (map markEntry (onionOrder names h))).
Proof.
  revert s. induction names as [|n names IH]; intros s.
  - reflexivity.
  - rewrite onionOrder_cons, map_cons, wrapMiddleware_cons, Marker_run, IH.
    rewrite !addLogs_addLogs. do 2 f_equal.
    by rewrite map_cons, map_app.
Qed.

(** C1. For every list of middlewares registered in order and every base
    handler, [App.Handle] builds the handler [m1(m2(...mn(h)))] with the
    application's middleware outside the middleware of the route; the
    route is registered with that chain; and markers [A, B] (or any list
    of them, application-level before route-level) around a handler [H]
    run in the order [A-pre, B-pre, H, B-post, A-post]. *)
Theorem C1_middleware_onion_order :
  (forall (a : App) (handler : Handler) (routeMw : list Middleware),
     routeChain a handler routeMw = foldr (fun m h => m h) handler (mw a ++ routeMw)) /\
  (forall (m1 m2 : Middleware) (handler : Handler),
     routeChain (NewApp [m1]) handler [m2] = m1 (m2 handler)) /\
  (forall (a : App) (method group path : string) (handler : Handler)
          (routeMw : list Middleware),
     mux (Handle a method group path handler routeMw) !! (method, finalPath group path)
     = Some (baseHandler (routeChain a handler routeMw))) /\
  (forall (appNames routeNames : list string) (h : string) (res : option error)
          (ctx : Context) (w : ResponseWriter) (r : Request) (s : World),
     routeChain (NewApp (map Marker appNames)) (markedHandler h res)
                (map Marker routeNames) ctx w r s
     = (res, addLogs s (map markEntry (onionOrder (appNames ++ routeNames) h)))) /\
  (forall (res : option error) (ctx : Context) (w : ResponseWriter) (r : Request)
          (s : World),
     wrapMiddleware [Marker "A"; Marker "B"] (markedHandler "H" res) ctx w r s
     = (res, addLogs s (map markEntry ["A-pre"; "B-pre"; "H"; "B-post"; "A-post"]))) /\
  (forall (cfg : APIMuxConfig) (Metrics Panics : Middleware) (n : Z),
     mux (APIMux cfg Metrics Panics n) !! ("GET", "/v1/testauth")
     = Some (baseHandler
               (Logger (Log cfg)
                  (Errors (Log cfg)
                     (Metrics
                        (Panics
                           (Authenticate (AuthOf cfg)
                              (Authorize ["ADMIN"] (Test n))))))))).
Proof.
  split; [|split; [|split; [|split; [|split]]]].
  - intros. apply routeChain_app.
  - reflexivity.
  - intros. apply Handle_lookup.
  - intros. rewrite routeChain_app. simpl mw. rewrite <- map_app. apply markers_run.
  - intros. apply (markers_run ["A"; "B"] "H").
  - intros. unfold APIMux, v1. apply Handle_lookup.
Qed.

(** The routes of the service at work. *)
Example testauth_admin_passes :
  served (adminService 1) (requestWith ["Bearer good"])
  = ([mkResponse 200 (DataPayload ("{" +:+ quoted "Status" +:+ ":" +:+ quoted "OK" +:+ "}"))],
     []).
Proof. vm_compute. reflexivity. Qed.

Example testauth_user_forbidden :
  served (userService 1) (requestWith ["bearer good"])
  = ([mkResponse 403
        (ErrorPayload
           (mkErrorResponse
              "you are not authorized for that action, claims[[USER]] roles[[ADMIN]]"
              ""))],
     []).
Proof. vm_compute. reflexivity. Qed.

Example testauth_no_header_unauthorized :
  served (adminService 1) testRequest
  = ([mkResponse 200 (DataPayload ("{" +:+ quoted "Status" +:+ ":" +:+ quoted "OK" +:+ "}"))],
     []) /\
  served (adminService 1) (requestWith [])
  = ([mkResponse 401
        (ErrorPayload
           (mkErrorResponse "expected authorization header format: bearer <token>" ""))],
     []).
Proof. vm_compute. split; reflexivity. Qed.

Example test_even_draw_internal_error :
  served (adminService 0) testRequest
  = ([mkResponse 500 (ErrorPayload (mkErrorResponse "Internal Server Error" ""))], []).
Proof. vm_compute. reflexivity. Qed.

(* ===================================================================== *)
(** * The Authorization header                                           *)
(* ===================================================================== *)

Lemma Split_nonempty (s : string) (sep : ascii) : GoStrings.Split s sep <> [].
Proof.
  destruct s as [|a rest]; simpl; [discriminate |].
  destruct (Ascii.eqb a sep); [discriminate |].
  destruct (GoStrings.Split rest sep); discriminate.
Qed.

Lemma Split_noSpace (s : string) : noSpace s -> GoStrings.Split s " " = [s].
Proof.
  induction s as [|a rest IH]; simpl; [done |].
  intros [Ha Hrest]. apply Ascii.eqb_neq in Ha. rewrite Ha, (IH Hrest). done.
Qed.

Lemma Split_space (p q : string) :
  noSpace p -> GoStrings.Split (p +:+ " " +:+ q) " " = p :: GoStrings.Split q " ".
Proof.
  induction p as [|a rest IH]; simpl; [done |].
  intros [Ha Hrest]. apply Ascii.eqb_neq in Ha. rewrite Ha, (IH Hrest). done.
Qed.

Lemma Split_one (s b : string) :
  GoStrings.Split s " " = [b] -> s = b /\ noSpace s.
Proof.
  revert b. induction s as [|a rest IH]; simpl; intros b H.
  - by inversion H.
  - destruct (Ascii.eqb a " ") eqn:Ea.
    + inversion H as [[Hb Hnil]]. by apply Split_nonempty in Hnil.
    + destruct (GoStrings.Split rest " ") as [|part parts] eqn:Er.
      * by apply Split_nonempty in Er.
      * inversion H; subst. destruct (IH part eq_refl) as [-> Hns].
        split; [done |]. split; [by apply Ascii.eqb_neq | done].
Qed.

Lemma Split_two (s a b : string) :
  GoStrings.Split s " " = [a; b] ->
  s = a +:+ " " +:+ b /\ noSpace a /\ noSpace b.
Proof.
  revert a. induction s as [|c rest IH]; simpl; intros a H.
  - inversion H.
  - destruct (Ascii.eqb c " ") eqn:Ec.
    + apply Ascii.eqb_eq in Ec. subst c.
      inversion H as [[Ha Hb]]. apply Split_one in Hb as [-> Hns]. done.
    + destruct (GoStrings.Split rest " ") as [|part parts] eqn:Er.
      * inversion H.
      * inversion H; subst. destruct (IH part eq_refl) as (-> & Hp & Hb).
        split; [done |]. split; [|done]. split; [by apply Ascii.eqb_neq | done].
Qed.

Lemma lower_byte_letter (a b : ascii) :
  (97 <= N_of_ascii b)%N -> (N_of_ascii b <= 122)%N ->
  GoStrings.lower_byte a = b <-> sameLetter a b.
Proof.
  intros Hlo Hhi. unfold GoStrings.lower_byte, sameLetter.
  pose proof (N_ascii_bounded a) as Ha.
  destruct ((65 <=? N_of_ascii a)%N && (N_of_ascii a <=? 90)%N) eqn:E.
  - apply andb_true_iff in E as [E1 E2].
    apply N.leb_le in E1. apply N.leb_le in E2. split.
    + intros <-. right. rewrite N_ascii_embedding by lia. done.
    + intros [<- | (_ & _ & H)]; [lia |].
      rewrite H. apply ascii_N_embedding.
  - apply andb_false_iff in E. split.
    + intros ->. by left.
    + intros [-> | (H1 & H2 & _)]; [done |].
      apply N.leb_le in H1. apply N.leb_le in H2.
      destruct E as [E | E]; congruence.
Qed.

Lemma ToLower_spelledAs (s word : string) :
  lowerCaseWord word ->
  GoStrings.ToLower s = word <-> spelledAs s word.
Proof.
  revert word. induction s as [|a s IH]; intros [|b word]; simpl; try done.
  intros [[Hlo Hhi] Hword]. split.
  - intros H. injection H as Ha Hs. split.
    + by apply lower_byte_letter.
    + by apply IH.
  - intros [Ha Hs]. f_equal.
    + by apply lower_byte_letter.
    + by apply IH.
Qed.

Lemma ToLower_bearer (s : string) :
  GoStrings.ToLower s = "bearer" <-> spelledAs s "bearer".
Proof. apply ToLower_spelledAs. simpl. lia. Qed.

Lemma headerRejected_false (authStr : string) :
  headerRejected authStr = false <-> bearerFormat authStr.
Proof.
  unfold headerRejected, bearerFormat. rewrite orb_false_iff, !negb_false_iff.
  rewrite Nat.eqb_eq, String.eqb_eq. split.
  - intros [Hlen Hlow].
    destruct (GoStrings.Split authStr " ") as [|scheme [|token [|]]] eqn:E;
      try discriminate.
    apply Split_two in E as (-> & Hs & Ht). simpl in Hlow.
    exists scheme, token. by rewrite <- ToLower_bearer.
  - intros (scheme & token & -> & Hs & Ht & Hb).
    rewrite Split_space, (Split_noSpace token) by done. simpl.
    by rewrite ToLower_bearer.
Qed.

Lemma headerRejected_true (authStr : string) :
  ~ bearerFormat authStr -> headerRejected authStr = true.
Proof.
  intros H. destruct (headerRejected authStr) eqn:E; [done |].
  by apply headerRejected_false in E.
Qed.

Lemma Authenticate_rejected (a : Auth) (handler : Handler) (ctx : Context)
    (w : ResponseWriter) (r : Request) (s : World) :
  headerRejected (Header_Get (Header r) "authorization") = true ->
  Authenticate a handler ctx w r s = (Some headerFormatError, s).
Proof.
  intros H. unfold Authenticate. unfold headerRejected in H. by rewrite H.
Qed.

Lemma Authenticate_accepted (a : Auth) (handler : Handler) (ctx : Context)
    (w : ResponseWriter) (r : Request) (s : World) (scheme token : string) :
  Header_Get (Header r) "authorization" = scheme +:+ " " +:+ token ->
  noSpace scheme -> noSpace token -> spelledAs scheme "bearer" ->
  Authenticate a handler ctx w r s
  = match ValidateToken a (clock s) token with
    | inr err => (Some (RequestError err StatusUnauthorized), s)
    | inl claims => handler (SetClaims ctx claims) w r s
    end.
Proof.
  intros Hh Hs Ht Hb.
  assert (headerRejected (Header_Get (Header r) "authorization") = false) as Hrej.
  { apply headerRejected_false. by exists scheme, token. }
  unfold Authenticate. unfold headerRejected in Hrej. rewrite Hrej.
  rewrite Hh, Split_space, (Split_noSpace token) by done.
  unfold bind, timeNow. simpl.
  by destruct (ValidateToken a (clock s) token).
Qed.

(** C2. When the Authorization header is not made of exactly two parts
    separated by a space with the first part spelling [bearer] in any
    case (a missing or empty header included), [Authenticate] returns a
    request error with status 401; the inner handler is not run, whatever
    it is, and the world is left as it was. *)
Theorem C2_malformed_header_unauthorized (a : Auth) (handler : Handler)
    (ctx : Context) (w : ResponseWriter) (r : Request) (s : World) :
  ~ bearerFormat (Header_Get (Header r) "authorization")
  \/ Header r !! "Authorization" = None
  \/ Header_Get (Header r) "authorization" = "" ->
  Authenticate a handler ctx w r s
  = (Some (RequestError
             (errorString "expected authorization header format: bearer <token>")
             401), s).
Proof.
  intros H. apply Authenticate_rejected.
  destruct H as [H | [H | H]].
  - by apply headerRejected_true.
  - unfold Header_Get. change (CanonicalMIMEHeaderKey "authorization") with "Authorization".
    by rewrite H.
  - by rewrite H.
Qed.

Lemma C2_malformed_header_witness :
  ~ bearerFormat (Header_Get (Header (requestWith ["Token good"])) "authorization") /\
  Authenticate (oneTokenAuth "good" adminClaims) (markedHandler "H" None)
               noContext 0%nat (requestWith ["Token good"]) emptyWorld
  = (Some (RequestError
             (errorString "expected authorization header format: bearer <token>")
             401), emptyWorld).
Proof.
  assert (~ bearerFormat (Header_Get (Header (requestWith ["Token good"]))
                                     "authorization")) as Hbad.
  { intros H. apply headerRejected_false in H. vm_compute in H. discriminate H. }
  split; [exact Hbad |].
  apply (C2_malformed_header_unauthorized
           (oneTokenAuth "good" adminClaims) (markedHandler "H" None)
           noContext 0%nat (requestWith ["Token good"]) emptyWorld).
  left. exact Hbad.
Defined.

(** C3. For a well-formed bearer header: when [ValidateToken] fails,
    [Authenticate] returns that error as a request error with status 401
    and does not run the inner handler; when it succeeds, the inner
    handler runs with the context to which the claims were added (and
    which keeps the values of the request). *)
Theorem C3_token_validation (a : Auth) (handler : Handler) (ctx : Context)
    (w : ResponseWriter) (r : Request) (s : World) (scheme token : string) :
  Header_Get (Header r) "authorization" = scheme +:+ " " +:+ token ->
  noSpace scheme -> noSpace token -> spelledAs scheme "bearer" ->
  match ValidateToken a (clock s) token with
  | inr err =>
      Authenticate a handler ctx w r s = (Some (RequestError err 401), s)
  | inl claims =>
      Authenticate a handler ctx w r s = handler (SetClaims ctx claims) w r s
      /\ GetClaims (SetClaims ctx claims) = inl claims
      /\ GetValues (SetClaims ctx claims) = GetValues ctx
      /\ ctxTraceID (SetClaims ctx claims) = ctxTraceID ctx
  end.
Proof.
  intros Hh Hs Ht Hb.
  rewrite (Authenticate_accepted a handler ctx w r s scheme token) by done.
  by destruct (ValidateToken a (clock s) token).
Qed.

Lemma C3_token_validation_witness :
  let r := requestWith ["Bearer good"] in
  let a := oneTokenAuth "good" adminClaims in
  Header_Get (Header r) "authorization" = "Bearer" +:+ " " +:+ "good" /\
  noSpace "Bearer" /\ noSpace "good" /\ spelledAs "Bearer" "bearer" /\
  Authenticate a (markedHandler "H" None) noContext 0%nat r emptyWorld
  = markedHandler "H" None (SetClaims noContext adminClaims) 0%nat r emptyWorld.
Proof.
  assert (noSpace "Bearer") as H1 by (simpl; repeat split; discriminate).
  assert (noSpace "good") as H2 by (simpl; repeat split; discriminate).
  assert (spelledAs "Bearer" "bearer") as H3.
  { simpl. repeat split; try (by left). right. vm_compute. repeat split; discriminate. }
  simpl. split; [reflexivity |]. split; [exact H1 |]. split; [exact H2 |].
  split; [exact H3 |].
  exact (proj1 (C3_token_validation (oneTokenAuth "good" adminClaims)
                  (markedHandler "H" None) noContext 0%nat
                  (requestWith ["Bearer good"]) emptyWorld "Bearer" "good"
                  eq_refl H1 H2 H3)).
Defined.

(** C4. [Authorize] with a fixed list of roles: without claims in the
    context it returns a request error with status 403 and does not run
    the inner handler; with claims that are not authorized for the roles
    it does the same; otherwise it runs the inner handler on the same
    context, response writer and request. *)
Theorem C4_authorize (roles : list string) (handler : Handler) (ctx : Context)
    (w : ResponseWriter) (r : Request) (s : World) :
  match GetClaims ctx with
  | inr _ =>
      exists err, Authorize roles handler ctx w r s = (Some (RequestError err 403), s)
  | inl claims =>
      if Authorized claims roles
      then Authorize roles handler ctx w r s = handler ctx w r s
      else exists err,
          Authorize roles handler ctx w r s = (Some (RequestError err 403), s)
  end.
Proof.
  unfold Authorize. destruct (GetClaims ctx) as [claims | e].
  - destruct (Authorized claims roles); simpl; [done | by eexists].
  - by eexists.
Qed.

(* ===================================================================== *)
(** * Running the base handler, Logger and Errors                        *)
(* ===================================================================== *)

Lemma baseHandler_run (chain : Handler) (w : ResponseWriter) (r : Request)
    (s : World) :
  baseHandler chain w r s
  = let '(res, s1) := chain (requestContext r s) w r (requestWorld r s) in
    (tt, match res with Some _ => signalled s1 | None => s1 end).
Proof.
  unfold baseHandler, bind, timeNow, newValues. simpl.
  fold (requestContext r s). fold (requestWorld r s).
  destruct (chain _ w r _) as [[err|] s1]; reflexivity.
Qed.

Lemma GetValues_requestContext (r : Request) (s : World) :
  GetValues (requestContext r s) = inl (length (heap s)).
Proof. reflexivity. Qed.

Lemma valuesAt_requestWorld (r : Request) (s : World) :
  valuesAt (length (heap s)) (requestWorld r s)
  = mkValues (ctxTraceID (reqContext r)) (clock s) 0.
Proof.
  unfold valuesAt, requestWorld. simpl.
  rewrite lookup_app_r by lia. by rewrite Nat.sub_diag.
Qed.

Lemma loggerBody_run (log : SugaredLogger) (p : loc) (handler : Handler)
    (ctx : Context) (w : ResponseWriter) (r : Request) (s : World) :
  loggerBody log p handler ctx w r s
  = let '(res, s1) := handler ctx w r (addLogs s [startedEntry log p r s]) in
    (res, addLogs s1 [completedEntry log p r s1]).
Proof.
  unfold loggerBody, bind, loadValues, Infow, emit, timeNow, ret. simpl.
  fold (valuesAt p s). fold (startedEntry log p r s).
  fold (addLogs s [startedEntry log p r s]).
  destruct (handler ctx w r _) as [res s1]. reflexivity.
Qed.

Lemma errorsBody_error (log : SugaredLogger) (p : loc) (handler : Handler)
    (ctx : Context) (w : ResponseWriter) (r : Request) (s s1 : World) (err : error) :
  GetValues ctx = inl p ->
  handler ctx w r s = (Some err, s1) ->
  errorsBody log p handler ctx w r s
  = (answeredResult w err s1, answeredWorld log p w err s1).
Proof.
  intros Hv Hh. unfold errorsBody, bind. rewrite Hh.
  unfold loadValues, Errorw, emit, Respond, SetStatusCode, bind. simpl.
  destruct (errorResponse err) as [er status] eqn:Eer.
  rewrite Hv. unfold storeStatusCode, writeResponse, bind, ret. simpl.
  unfold answeredResult, answeredWorld. rewrite Eer. simpl.
  fold (valuesAt p s1).
  destruct (writeErr (writers s1 !!! w)) as [e'|]; [reflexivity |].
  destruct (IsShutdown err); reflexivity.
Qed.

Lemma errorsBody_ok (log : SugaredLogger) (p : loc) (handler : Handler)
    (ctx : Context) (w : ResponseWriter) (r : Request) (s s1 : World) :
  handler ctx w r s = (None, s1) ->
  errorsBody log p handler ctx w r s = (None, s1).
Proof. intros Hh. unfold errorsBody, bind. by rewrite Hh. Qed.

Lemma Errors_present (log : SugaredLogger) (p : loc) (handler : Handler)
    (ctx : Context) (w : ResponseWriter) (r : Request) (s : World) :
  GetValues ctx = inl p ->
  Errors log handler ctx w r s = errorsBody log p handler ctx w r s.
Proof. intros Hv. unfold Errors. by rewrite Hv. Qed.

Lemma Errors_missing (log : SugaredLogger) (handler : Handler)
    (ctx : Context) (w : ResponseWriter) (r : Request) (s : World) :
  ctxValues ctx = None ->
  Errors log handler ctx w r s
  = (Some (shutdownError "web value missing from context"), s).
Proof. intros Hv. unfold Errors, GetValues. by rewrite Hv. Qed.

Lemma Logger_present (log : SugaredLogger) (p : loc) (handler : Handler)
    (ctx : Context) (w : ResponseWriter) (r : Request) (s : World) :
  GetValues ctx = inl p ->
  Logger log handler ctx w r s = loggerBody log p handler ctx w r s.
Proof. intros Hv. unfold Logger. by rewrite Hv. Qed.

Lemma responses_answeredWorld (log : SugaredLogger) (p : loc) (w : ResponseWriter)
    (err : error) (s : World) :
  responses w (answeredWorld log p w err s)
  = responses w s ++ [mkResponse (errorResponse err).2
                                 (ErrorPayload (errorResponse err).1)].
Proof.
  unfold responses, answeredWorld. simpl. by rewrite lookup_total_insert_eq.
Qed.

Lemma responses_answeredWorld_other (log : SugaredLogger) (p : loc)
    (w w' : ResponseWriter) (err : error) (s : World) :
  w <> w' ->
  responses w' (answeredWorld log p w err s) = responses w' s.
Proof.
  intros Hne. unfold responses, answeredWorld. simpl.
  by rewrite lookup_total_insert_ne.
Qed.

(* ===================================================================== *)
(** * The Errors middleware                                              *)
(* ===================================================================== *)

Lemma errorResponse_cases (err : error) :
  match Cause err with
  | FieldErrors fields =>
      errorResponse err
      = (mkErrorResponse "data validation error" (marshalFieldErrors fields), 400)
  | RequestError e status =>
      errorResponse err = (mkErrorResponse (Error e) "", status)
  | _ => errorResponse err = (mkErrorResponse "Internal Server Error" "", 500)
  end.
Proof. unfold errorResponse. by destruct (Cause err). Qed.

(** C5. For every error that an inner handler returns to [Errors]: the
    error is logged, and one response is written whose status and body
    follow the kind of the error: 400 with the per-field messages for a
    field-validation error, the carried status and the message for a
    request error, and for any other error 500 with the generic status
    text as the only content, so that the message of the error is in the
    log and not in the response. *)
Theorem C5_error_classification (log : SugaredLogger) (handler : Handler)
    (ctx : Context) (w : ResponseWriter) (r : Request) (s s1 : World)
    (err : error) (p : loc) :
  GetValues ctx = inl p ->
  handler ctx w r s = (Some err, s1) ->
  let s2 := (Errors log handler ctx w r s).2 in
  logs s2 = logs s1 ++ [errorEntry log p err s1] /\
  exists er status,
    responses w s2 = responses w s1 ++ [mkResponse status (ErrorPayload er)] /\
    match Cause err with
    | FieldErrors fields =>
        status = 400 /\
        er = mkErrorResponse "data validation error" (marshalFieldErrors fields)
    | RequestError e carried =>
        status = carried /\ er = mkErrorResponse (Error e) ""
    | _ =>
        status = 500 /\ er = mkErrorResponse "Internal Server Error" ""
    end.
Proof.
  intros Hv Hh. simpl.
  rewrite (Errors_present log p), (errorsBody_error log p handler ctx w r s s1 err)
    by done.
  simpl. split; [done |].
  exists (errorResponse err).1, (errorResponse err).2.
  split; [apply responses_answeredWorld |].
  pose proof (errorResponse_cases err) as H.
  destruct (Cause err); by rewrite H.
Qed.

Lemma C5_error_classification_witness :
  let handler := failingHandler (RequestError (errorString "token is expired") 401) in
  let ctx := requestContext testRequest emptyWorld in
  let s := requestWorld testRequest emptyWorld in
  GetValues ctx = inl 0%nat /\
  handler ctx 0%nat testRequest s
  = (Some (RequestError (errorString "token is expired") 401), s) /\
  responses 0%nat (Errors "SALES-API" handler ctx 0%nat testRequest s).2
  = [mkResponse 401 (ErrorPayload (mkErrorResponse "token is expired" ""))].
Proof.
  simpl. split; [reflexivity |]. split; [reflexivity |].
  destruct (C5_error_classification "SALES-API"
              (failingHandler (RequestError (errorString "token is expired") 401))
              (requestContext testRequest emptyWorld) 0%nat testRequest
              (requestWorld testRequest emptyWorld)
              (requestWorld testRequest emptyWorld)
              (RequestError (errorString "token is expired") 401) 0%nat
              eq_refl eq_refl) as (_ & er & status & Hresp & Hst & Her).
  rewrite Hresp, Hst, Her. reflexivity.
Defined.

(** C7, as the code has it.  When the context holds the values of the
    request and the inner handler returns an error, [Errors] writes
    exactly one response, status and body, to the writer of the request
    and none to any other writer; the error it returns, a shutdown error
    included, comes with the world in which that response is written.
    When the values are missing, [Errors] returns a shutdown error at
    once: the inner handler is not run and no response is written. *)
Theorem C7_one_response_when_values_present (log : SugaredLogger)
    (handler : Handler) (ctx : Context) (w : ResponseWriter) (r : Request)
    (s : World) :
  (forall (p : loc) (err : error) (s1 : World),
      GetValues ctx = inl p ->
      handler ctx w r s = (Some err, s1) ->
      let '(res, s2) := Errors log handler ctx w r s in
      (exists resp, responses w s2 = responses w s1 ++ [resp]) /\
      (forall w', w <> w' -> responses w' s2 = responses w' s1) /\
      res = answeredResult w err s1 /\
      (IsShutdown err = true -> res <> None)) /\
  (ctxValues ctx = None ->
   Errors log handler ctx w r s
   = (Some (shutdownError "web value missing from context"), s)).
Proof.
  split.
  - intros p err s1 Hv Hh.
    rewrite (Errors_present log p), (errorsBody_error log p handler ctx w r s s1 err)
      by done.
    split; [|split; [|split]].
    + eexists. apply responses_answeredWorld.
    + intros w' Hne. by apply responses_answeredWorld_other.
    + done.
    + intros Hsd. unfold answeredResult. rewrite Hsd.
      by destruct (writeErr (writers s1 !!! w)).
  - apply Errors_missing.
Qed.

Lemma C7_one_response_witness :
  let err := shutdownError "integrity issue" in
  let ctx := requestContext testRequest emptyWorld in
  let s := requestWorld testRequest emptyWorld in
  GetValues ctx = inl 0%nat /\
  failingHandler err ctx 0%nat testRequest s = (Some err, s) /\
  (exists resp,
      responses 0%nat (Errors "SALES-API" (failingHandler err) ctx 0%nat testRequest s).2
      = responses 0%nat s ++ [resp]) /\
  (Errors "SALES-API" (failingHandler err) ctx 0%nat testRequest s).1 = Some err.
Proof.
  simpl. split; [reflexivity |]. split; [reflexivity |].
  pose proof (proj1 (C7_one_response_when_values_present "SALES-API"
              (failingHandler (shutdownError "integrity issue"))
              (requestContext testRequest emptyWorld) 0%nat testRequest
              (requestWorld testRequest emptyWorld))
              0%nat (shutdownError "integrity issue")
              (requestWorld testRequest emptyWorld) eq_refl eq_refl) as H.
  destruct (Errors "SALES-API" (failingHandler (shutdownError "integrity issue"))
              (requestContext testRequest emptyWorld) 0%nat testRequest
              (requestWorld testRequest emptyWorld)) as [res s2].
  destruct H as (Hone & _ & Hres & _). split; [exact Hone |].
  simpl. rewrite Hres. reflexivity.
Defined.

(** C7 as it is written fails when the values of the request are missing
    from the context: the inner handler would return an error, and
    [Errors] writes no response at all. *)
Lemma C7_missing_values_counterexample :
  let err := errorString "untrusted error" in
  failingHandler err noContext 0%nat testRequest emptyWorld = (Some err, emptyWorld) /\
  responses 0%nat (Errors "SALES-API" (failingHandler err) noContext 0%nat
                          testRequest emptyWorld).2 = [] /\
  ~ (exists resp,
        responses 0%nat (Errors "SALES-API" (failingHandler err) noContext 0%nat
                                testRequest emptyWorld).2
        = responses 0%nat emptyWorld ++ [resp]).
Proof.
  simpl. split; [reflexivity |]. split; [reflexivity |].
  intros [resp H]. vm_compute in H. discriminate H.
Qed.

(* ===================================================================== *)
(** * Shutdown                                                           *)
(* ===================================================================== *)

Lemma loggerBody_ext (log : SugaredLogger) (p : loc) (h1 h2 : Handler)
    (ctx : Context) (w : ResponseWriter) (r : Request) (s : World) :
  (forall s', h1 ctx w r s' = h2 ctx w r s') ->
  loggerBody log p h1 ctx w r s = loggerBody log p h2 ctx w r s.
Proof. intros H. by rewrite !loggerBody_run, H. Qed.

(** Under [Logger] and [Errors] as the outermost middleware, the chain of
    a route runs their main paths on the context of the base handler. *)
Lemma salesChain_run (m : gmap (string * string) HandlerFunc)
    (log1 log2 : SugaredLogger) (rest : list Middleware) (handler : Handler)
    (routeMw : list Middleware) (w : ResponseWriter) (r : Request) (s : World) :
  routeChain (mkApp m (Logger log1 :: Errors log2 :: rest)) handler routeMw
             (requestContext r s) w r (requestWorld r s)
  = loggerBody log1 (length (heap s))
      (errorsBody log2 (length (heap s)) (wrapMiddleware (rest ++ routeMw) handler))
      (requestContext r s) w r (requestWorld r s).
Proof.
  rewrite routeChain_app. simpl mw.
  change ((Logger log1 :: Errors log2 :: rest) ++ routeMw)
    with (Logger log1 :: Errors log2 :: (rest ++ routeMw)).
  rewrite !wrapMiddleware_cons.
  rewrite (Logger_present log1 (length (heap s))) by apply GetValues_requestContext.
  apply loggerBody_ext. intros s'.
  apply Errors_present, GetValues_requestContext.
Qed.


(** C6, as the code has it.  After an inner handler returned an error
    and [Errors] wrote the response: when the writer reported no error,
    [Errors] returns the error of the handler if it is a shutdown error
    and nil otherwise; when the writer reported an error, [Errors] returns
    that error, whatever the error of the handler was.  The base handler
    of a route signals shutdown exactly when the chain hands it an error.
    Hence, under [Logger] and [Errors], a handler error answered without
    a write error signals shutdown exactly when it is a shutdown
    error. *)
Theorem C6_shutdown_signalling :
  (forall (log : SugaredLogger) (handler : Handler) (ctx : Context)
          (w : ResponseWriter) (r : Request) (s s1 : World) (err : error) (p : loc),
      GetValues ctx = inl p ->
      handler ctx w r s = (Some err, s1) ->
      Errors log handler ctx w r s
      = (match writeErr (writers s1 !!! w) with
         | Some err' => Some err'
         | None => if IsShutdown err then Some err else None
         end,
         answeredWorld log p w err s1)) /\
  (forall (log : SugaredLogger) (handler : Handler) (ctx : Context)
          (w : ResponseWriter) (r : Request) (s s1 : World) (p : loc),
      GetValues ctx = inl p ->
      handler ctx w r s = (None, s1) ->
      Errors log handler ctx w r s = (None, s1)) /\
  (forall (chain : Handler) (w : ResponseWriter) (r : Request) (s s1 : World)
          (res : option error),
      chain (requestContext r s) w r (requestWorld r s) = (res, s1) ->
      baseHandler chain w r s
      = (tt, match res with Some _ => signalled s1 | None => s1 end)) /\
  (forall (m : gmap (string * string) HandlerFunc) (log1 log2 : SugaredLogger)
          (rest routeMw : list Middleware) (handler : Handler)
          (w : ResponseWriter) (r : Request) (s s1 : World) (err : error),
      wrapMiddleware (rest ++ routeMw) handler (requestContext r s) w r
        (addLogs (requestWorld r s)
                 [startedEntry log1 (length (heap s)) r (requestWorld r s)])
      = (Some err, s1) ->
      writeErr (writers s1 !!! w) = None ->
      shutdown (baseHandler
                  (routeChain (mkApp m (Logger log1 :: Errors log2 :: rest))
                              handler routeMw) w r s).2
      = if IsShutdown err then shutdown s1 ++ [SIGTERM] else shutdown s1).
Proof.
  split; [|split; [|split]].
  - intros log handler ctx w r s s1 err p Hv Hh.
    rewrite (Errors_present log p) by done.
    by rewrite (errorsBody_error log p handler ctx w r s s1 err).
  - intros log handler ctx w r s s1 p Hv Hh.
    rewrite (Errors_present log p) by done. by apply errorsBody_ok.
  - intros chain w r s s1 res Hc. by rewrite baseHandler_run, Hc.
  - intros m log1 log2 rest routeMw handler w r s s1 err Hin Hw.
    rewrite baseHandler_run, salesChain_run, loggerBody_run.
    rewrite (errorsBody_error log2 (length (heap s)) _ _ w r _ s1 err)
      by (done || apply GetValues_requestContext).
    unfold answeredResult. rewrite Hw.
    destruct (IsShutdown err); reflexivity.
Qed.

Lemma C6_shutdown_signalling_witness :
  let err := shutdownError "integrity issue" in
  let r := testRequest in
  let s := emptyWorld in
  wrapMiddleware ([] ++ []) (failingHandler err) (requestContext r s) 0%nat r
    (addLogs (requestWorld r s)
             [startedEntry "SALES-API" (length (heap s)) r (requestWorld r s)])
  = (Some err,
     addLogs (requestWorld r s)
             [startedEntry "SALES-API" (length (heap s)) r (requestWorld r s)]) /\
  shutdown (baseHandler (routeChain salesApp (failingHandler err) []) 0%nat r s).2
  = [SIGTERM].
Proof.
  simpl. split; [reflexivity |].
  exact (proj2 (proj2 (proj2 C6_shutdown_signalling)) ∅ "SALES-API" "SALES-API"
           [] [] (failingHandler (shutdownError "integrity issue")) 0%nat
           testRequest emptyWorld _ (shutdownError "integrity issue")
           eq_refl eq_refl).
Defined.

(** C6 as it is written fails when the response cannot be written: the
    error of the handler is not a shutdown error, yet [Errors] returns an
    error (the one of the writer) and the base handler signals
    shutdown. *)
Lemma C6_write_error_counterexample :
  let err := errorString "untrusted error" in
  let app := Handle salesApp "GET" "v1" "/test" (failingHandler err) [] in
  IsShutdown err = false /\
  (Errors "SALES-API" (failingHandler err)
          (requestContext testRequest brokenWriterWorld) 0%nat testRequest
          (requestWorld testRequest brokenWriterWorld)).1 = Some brokenPipe /\
  IsShutdown brokenPipe = false /\
  shutdown (ServeHTTP app 0%nat testRequest brokenWriterWorld).2 = [SIGTERM].
Proof. vm_compute. done. Qed.

(* ===================================================================== *)
(** * The values of the request under App.Handle                         *)
(* ===================================================================== *)

Lemma ServeHTTP_Handle (a : App) (method group path : string) (handler : Handler)
    (routeMw : list Middleware) (w : ResponseWriter) (r : Request) (s : World) :
  Method r = method -> URLPath r = finalPath group path ->
  ServeHTTP (Handle a method group path handler routeMw) w r s
  = baseHandler (routeChain a handler routeMw) w r s.
Proof.
  intros <- Hp. unfold ServeHTTP. rewrite Hp. by rewrite Handle_lookup.
Qed.

(** C10. A request dispatched to a route that [App.Handle] registered
    runs the chain of the route on a context that holds a [Values] object
    with the trace ID of the request and the time at which it started,
    stored before the chain is called.  Hence [GetValues] succeeds on
    that context, and with [Logger] and [Errors] as the outermost
    middleware the chain runs their main paths: the branches for missing
    values are not taken. *)
Theorem C10_values_present_under_Handle (a : App) (method group path : string)
    (handler : Handler) (routeMw : list Middleware) (w : ResponseWriter)
    (r : Request) (s : World) :
  Method r = method -> URLPath r = finalPath group path ->
  let p := length (heap s) in
  let ctx := requestContext r s in
  let s0 := requestWorld r s in
  ServeHTTP (Handle a method group path handler routeMw) w r s
  = (let '(res, s1) := routeChain a handler routeMw ctx w r s0 in
     (tt, match res with Some _ => signalled s1 | None => s1 end)) /\
  GetValues ctx = inl p /\
  valuesAt p s0 = mkValues (ctxTraceID (reqContext r)) (clock s) 0 /\
  (forall (log : SugaredLogger) (next : Handler),
      Logger log next ctx w r s0 = loggerBody log p next ctx w r s0) /\
  (forall (log1 log2 : SugaredLogger) (rest : list Middleware),
      mw a = Logger log1 :: Errors log2 :: rest ->
      routeChain a handler routeMw ctx w r s0
      = loggerBody log1 p
          (errorsBody log2 p (wrapMiddleware (rest ++ routeMw) handler))
          ctx w r s0).
Proof.
  intros Hm Hp. simpl.
  split; [|split; [|split; [|split]]].
  - rewrite ServeHTTP_Handle by done. apply baseHandler_run.
  - reflexivity.
  - apply valuesAt_requestWorld.
  - intros log next. by apply Logger_present.
  - intros log1 log2 rest Hmw. destruct a as [m amw]. simpl in Hmw. subst amw.
    apply salesChain_run.
Qed.

Lemma C10_values_present_witness :
  let err := errorString "untrusted error" in
  Method testRequest = "GET" /\
  URLPath testRequest = finalPath "v1" "/test" /\
  (ServeHTTP (Handle salesApp "GET" "v1" "/test" (failingHandler err) [])
             0%nat testRequest emptyWorld).2
  = (routeChain salesApp (failingHandler err) []
                (requestContext testRequest emptyWorld) 0%nat testRequest
                (requestWorld testRequest emptyWorld)).2.
Proof.
  simpl. split; [reflexivity |]. split; [reflexivity |].
  destruct (C10_values_present_under_Handle salesApp "GET" "v1" "/test"
              (failingHandler (errorString "untrusted error")) [] 0%nat
              testRequest emptyWorld eq_refl eq_refl) as (H & _).
  rewrite H. reflexivity.
Defined.

(* ===================================================================== *)
(** * The token codec: round trip                                        *)
(* ===================================================================== *)

Lemma verify_sign (priv : TokenCodec.PrivateKey) (m : Z) :
  TokenCodec.soundKey priv ->
  TokenCodec.verify (TokenCodec.Public priv) m (TokenCodec.sign priv m) = true.
Proof.
  intros (Hpos & Hinv). unfold TokenCodec.verify, TokenCodec.sign.
  apply Z.eqb_eq. apply Hinv. apply Z.mod_pos_bound. done.
Qed.

Lemma toy_key_sound : TokenCodec.soundKey TokenCodec.toyPrivate.
Proof.
  split; [reflexivity |].
  simpl. intros x [Hlo Hhi].
  assert (exists k : nat, x = Z.of_nat k /\ (k < 33)%nat) as (k & -> & Hk).
  { exists (Z.to_nat x). lia. }
  do 33 (destruct k as [|k]; [vm_compute; reflexivity |]). lia.
Qed.

Lemma encode_decode (digest : TokenCodec.TokenHeader -> Claims -> Z)
    (claims : Claims) (priv : TokenCodec.PrivateKey) (keyID : string)
    (keyLookup : string -> option TokenCodec.PublicKey) (now : Z) :
  TokenCodec.structurallyValid claims = true ->
  now <= ExpiresAt claims ->
  TokenCodec.soundKey priv ->
  keyLookup keyID = Some (TokenCodec.Public priv) ->
  exists token,
    TokenCodec.encode digest claims priv keyID = inl token /\
    TokenCodec.decode digest now token keyLookup = inl claims.
Proof.
  intros Hvalid Hexp Hkey Hlookup.
  unfold TokenCodec.encode. rewrite Hvalid. eexists. split; [reflexivity |].
  unfold TokenCodec.decode. simpl.
  rewrite Hlookup, verify_sign by done. simpl.
  destruct (now >? ExpiresAt claims) eqn:Egt; [|done].
  apply Z.gtb_lt in Egt. lia.
Qed.

(** The failures of [decode], in the order of its checks. *)
Lemma decode_failures (digest : TokenCodec.TokenHeader -> Claims -> Z)
    (token : TokenCodec.SignedToken)
    (keyLookup : string -> option TokenCodec.PublicKey) (now : Z) :
  (TokenCodec.alg (TokenCodec.header token) <> "RS256" ->
   TokenCodec.decode digest now token keyLookup = inr TokenCodec.VerificationError) /\
  (TokenCodec.alg (TokenCodec.header token) = "RS256" ->
   keyLookup (TokenCodec.kid (TokenCodec.header token)) = None ->
   TokenCodec.decode digest now token keyLookup = inr TokenCodec.UnknownKeyError) /\
  (forall key,
      TokenCodec.alg (TokenCodec.header token) = "RS256" ->
      keyLookup (TokenCodec.kid (TokenCodec.header token)) = Some key ->
      TokenCodec.verify key
        (digest (TokenCodec.header token) (TokenCodec.payload token))
        (TokenCodec.signature token) = true ->
      ExpiresAt (TokenCodec.payload token) < now ->
      TokenCodec.decode digest now token keyLookup = inr TokenCodec.ExpiredTokenError).
Proof.
  unfold TokenCodec.decode, TokenCodec.ValidMethods. split; [|split].
  - intros Halg. rewrite bool_decide_eq_false_2; [done |].
    by intros Hin%list_elem_of_singleton.
  - intros Halg Hnone. rewrite bool_decide_eq_true_2 by set_solver.
    simpl. by rewrite Hnone.
  - intros key Halg Hkey Hsig Hexp. rewrite bool_decide_eq_true_2 by set_solver.
    simpl. rewrite Hkey, Hsig. simpl.
    destruct (now >? ExpiresAt (TokenCodec.payload token)) eqn:Egt; [done |].
    rewrite Z.gtb_ltb in Egt. apply Z.ltb_ge in Egt. lia.
Qed.

(** [GenToken] succeeds with every sound key. *)
Lemma GenToken_succeeds (digest : TokenCodec.TokenHeader -> Claims -> Z)
    (privateKey : TokenCodec.PrivateKey) (now : Z) :
  TokenCodec.soundKey privateKey ->
  TokenCodec.GenToken digest privateKey now = None.
Proof.
  intros Hkey. unfold TokenCodec.GenToken.
  destruct (encode_decode digest
              (mkClaims "service project" "user-id-123" (now + 8760 * 3600) now ["ADMIN"])
              privateKey "54bb2165-71e1-41a6-af3e-7da4a0e1e2c1"
              (fun _ => Some (TokenCodec.Public privateKey)) now)
    as (token & -> & ->); [reflexivity | simpl; lia | done | reflexivity | done].
Qed.

(** C9. For every structurally valid claims value that has not expired,
    every key pair whose public key matches the private key and every
    key ID: encoding the claims with the private key under the key ID
    gives a token, and decoding that token with a key lookup that maps
    the key ID to the public key gives back the same claims. *)
Theorem C9_token_round_trip (digest : TokenCodec.TokenHeader -> Claims -> Z)
    (claims : Claims) (priv : TokenCodec.PrivateKey) (pub : TokenCodec.PublicKey)
    (keyID : string) (keyLookup : string -> option TokenCodec.PublicKey) (now : Z) :
  TokenCodec.structurallyValid claims = true ->
  now <= ExpiresAt claims ->
  TokenCodec.matching priv pub ->
  keyLookup keyID = Some pub ->
  exists token,
    TokenCodec.encode digest claims priv keyID = inl token /\
    TokenCodec.decode digest now token keyLookup = inl claims.
Proof.
  intros Hvalid Hexp [-> Hkey] Hlookup. by apply encode_decode.
Qed.

Lemma C9_token_round_trip_witness :
  let kid := "54bb2165-71e1-41a6-af3e-7da4a0e1e2c1" in
  TokenCodec.structurallyValid adminClaims = true /\
  1500 <= ExpiresAt adminClaims /\
  TokenCodec.oneKey kid TokenCodec.toyPublic kid = Some TokenCodec.toyPublic /\
  exists token,
    TokenCodec.encode TokenCodec.toyDigest adminClaims TokenCodec.toyPrivate kid
    = inl token /\
    TokenCodec.decode TokenCodec.toyDigest 1500 token
                      (TokenCodec.oneKey kid TokenCodec.toyPublic)
    = inl adminClaims.
Proof.
  simpl. split; [reflexivity |]. split; [vm_compute; discriminate |].
  split; [reflexivity |].
  apply (C9_token_round_trip TokenCodec.toyDigest adminClaims
           TokenCodec.toyPrivate TokenCodec.toyPublic
           "54bb2165-71e1-41a6-af3e-7da4a0e1e2c1"
           (TokenCodec.oneKey "54bb2165-71e1-41a6-af3e-7da4a0e1e2c1"
                              TokenCodec.toyPublic) 1500).
  - reflexivity.
  - vm_compute. discriminate.
  - split; [reflexivity | apply toy_key_sound].
  - reflexivity.
Defined.

(* ===================================================================== *)
(** * The docker package: the address of a started container             *)
(* ===================================================================== *)

Lemma default_last_cons {A B : Type} (f : A -> B) (d : B) (a : A) (l : list A) :
  default d (f <$> last (a :: l)) = default (f a) (f <$> last l).
Proof.
  revert d a. induction l as [|b l IH]; intros d a; [done |].
  rewrite last_cons_cons. by rewrite !IH.
Qed.

Lemma bindingsLoop_bindings (entries : list docker.JSON) (bs : list (string * string))
    (ip p : string) :
  Forall2 docker.isBinding entries bs ->
  docker.bindingsLoop entries ip p
  = docker.Returned (default ip (fst <$> last bs),
                     default p (snd <$> last (filter (fun b => b.1 <> "::") bs))).
Proof.
  intros H. revert ip p. induction H as [|v [bip bp] entries bs Hb Hall IH]; intros ip p.
  - reflexivity.
  - destruct Hb as (data & -> & Hip & Hp). simpl in Hip, Hp. simpl.
    rewrite Hip. destruct (String.eqb bip "::") eqn:E; simpl.
    + apply String.eqb_eq in E. subst bip. rewrite IH.
      rewrite filter_cons_False by (simpl; tauto).
      by rewrite default_last_cons.
    + apply String.eqb_neq in E. rewrite Hp, IH.
      rewrite filter_cons_True by done.
      by rewrite !default_last_cons.
Qed.

Lemma extractIPPort_bindings (doc : list (gmap string docker.JSON))
    (port : string) (entries : list docker.JSON) (bs : list (string * string)) :
  docker.inspected doc port entries ->
  Forall2 docker.isBinding entries bs ->
  docker.extractIPPort doc port
  = docker.Returned (docker.lastIP bs, docker.lastPort bs).
Proof.
  intros (doc0 & rest & nw & ports & -> & Hnw & Hports & Htcp) Hbs.
  unfold docker.extractIPPort. rewrite Hnw, Hports, Htcp.
  by apply bindingsLoop_bindings.
Qed.

Lemma inspectDoc_inspected (port : string) (entries : list docker.JSON) :
  docker.inspected (docker.inspectDoc port (docker.JArray entries)) port entries.
Proof.
  eexists _, _, _, _. split; [reflexivity |].
  split; [apply lookup_insert_eq |]. split; apply lookup_insert_eq.
Qed.

Lemma binding_isBinding (ip p : string) :
  docker.isBinding (docker.binding ip p) (ip, p).
Proof. eexists. split; [reflexivity |]. split; reflexivity. Qed.

(** X1. On a document of docker inspect that binds the port to a list of
    bindings, [extractIPPort] returns the address of the last binding
    together with the port of the last binding that is not on the IPv6
    wildcard; each is empty when there is no such binding. *)
Theorem X1_extractIPPort_last_bindings (doc : list (gmap string docker.JSON))
    (port : string) (entries : list docker.JSON) (bs : list (string * string)) :
  docker.inspected doc port entries ->
  Forall2 docker.isBinding entries bs ->
  docker.extractIPPort doc port
  = docker.Returned (docker.lastIP bs, docker.lastPort bs).
Proof.
  intros Hdoc Hbs. unfold docker.lastIP, docker.lastPort.
  destruct Hdoc as (doc0 & rest & nw & ports & -> & Hnw & Hports & Htcp).
  unfold docker.extractIPPort. rewrite Hnw, Hports, Htcp.
  by apply bindingsLoop_bindings.
Qed.

Lemma X1_extractIPPort_witness :
  let entries := [docker.binding "172.17.0.2" "5432"; docker.binding "0.0.0.0" "49153";
                  docker.binding "::" "49154"] in
  let bs := [("172.17.0.2", "5432"); ("0.0.0.0", "49153"); ("::", "49154")] in
  docker.inspected (docker.inspectDoc "5432" (docker.JArray entries)) "5432" entries /\
  Forall2 docker.isBinding entries bs /\
  docker.extractIPPort (docker.inspectDoc "5432" (docker.JArray entries)) "5432"
  = docker.Returned ("::", "49153").
Proof.
  cbv zeta. split; [apply inspectDoc_inspected |].
  split; [repeat constructor; apply binding_isBinding |].
  apply (X1_extractIPPort_last_bindings _ "5432"
           [docker.binding "172.17.0.2" "5432"; docker.binding "0.0.0.0" "49153";
            docker.binding "::" "49154"]
           [("172.17.0.2", "5432"); ("0.0.0.0", "49153"); ("::", "49154")]).
  - apply inspectDoc_inspected.
  - repeat constructor; apply binding_isBinding.
Defined.

Lemma lastPort_wildcard (front : list (string * string)) (p6 : string) :
  docker.lastPort (front ++ [("::", p6)]) = docker.lastPort front.
Proof.
  unfold docker.lastPort. rewrite filter_app.
  rewrite (filter_cons_False _ ("::", p6)) by (simpl; tauto).
  by rewrite filter_nil, app_nil_r.
Qed.

(** X2. When the last binding of the port is on the IPv6 wildcard [::],
    [extractIPPort] returns the address [::] with the port of an earlier
    binding (the last one that is not on the wildcard, or no port at
    all): the port of the wildcard binding itself is never returned. *)
Theorem X2_extractIPPort_wildcard_last (doc : list (gmap string docker.JSON))
    (port : string) (entries : list docker.JSON) (front : list (string * string))
    (p6 : string) :
  docker.inspected doc port entries ->
  Forall2 docker.isBinding entries (front ++ [("::", p6)]) ->
  docker.extractIPPort doc port = docker.Returned ("::", docker.lastPort front).
Proof.
  intros Hdoc Hbs.
  rewrite (extractIPPort_bindings doc port entries _ Hdoc Hbs).
  rewrite lastPort_wildcard. unfold docker.lastIP. by rewrite last_snoc.
Qed.

Lemma X2_extractIPPort_wildcard_witness :
  let entries := [docker.binding "0.0.0.0" "49153"; docker.binding "::" "49154"] in
  docker.inspected (docker.inspectDoc "5432" (docker.JArray entries)) "5432" entries /\
  Forall2 docker.isBinding entries ([("0.0.0.0", "49153")] ++ [("::", "49154")]) /\
  docker.extractIPPort (docker.inspectDoc "5432" (docker.JArray entries)) "5432"
  = docker.Returned ("::", "49153").
Proof.
  cbv zeta. split; [apply inspectDoc_inspected |].
  split; [repeat constructor; apply binding_isBinding |].
  apply (X2_extractIPPort_wildcard_last _ "5432"
           [docker.binding "0.0.0.0" "49153"; docker.binding "::" "49154"]
           [("0.0.0.0", "49153")] "49154").
  - apply inspectDoc_inspected.
  - repeat constructor; apply binding_isBinding.
Defined.

(** X3. When the last binding of the port is not on the IPv6 wildcard,
    [extractIPPort] returns the address and the port of that binding. *)
Theorem X3_extractIPPort_last_not_wildcard (doc : list (gmap string docker.JSON))
    (port : string) (entries : list docker.JSON) (front : list (string * string))
    (b : string * string) :
  docker.inspected doc port entries ->
  Forall2 docker.isBinding entries (front ++ [b]) ->
  b.1 <> "::" ->
  docker.extractIPPort doc port = docker.Returned b.
Proof.
  intros Hdoc Hbs Hno.
  rewrite (extractIPPort_bindings doc port entries _ Hdoc Hbs).
  unfold docker.lastIP, docker.lastPort.
  rewrite filter_app, (filter_cons_True _ b) by done.
  rewrite filter_nil, !last_snoc. by destruct b.
Qed.

Lemma X3_extractIPPort_last_not_wildcard_witness :
  let entries := [docker.binding "::" "49154"; docker.binding "0.0.0.0" "49153"] in
  docker.inspected (docker.inspectDoc "5432" (docker.JArray entries)) "5432" entries /\
  Forall2 docker.isBinding entries ([("::", "49154")] ++ [("0.0.0.0", "49153")]) /\
  ("0.0.0.0", "49153").1 <> "::" /\
  docker.extractIPPort (docker.inspectDoc "5432" (docker.JArray entries)) "5432"
  = docker.Returned ("0.0.0.0", "49153").
Proof.
  cbv zeta. split; [apply inspectDoc_inspected |].
  split; [repeat constructor; apply binding_isBinding |].
  split; [discriminate |].
  apply (X3_extractIPPort_last_not_wildcard _ "5432"
           [docker.binding "::" "49154"; docker.binding "0.0.0.0" "49153"]
           [("::", "49154")] ("0.0.0.0", "49153")).
  - apply inspectDoc_inspected.
  - repeat constructor; apply binding_isBinding.
  - discriminate.
Defined.

(** X4. A port that the container does not publish stops the test: when
    the ports of docker inspect have no entry for the port,
    [extractIPPort] ends in [t.Fatal] with the message of the missing
    settings; when the entry is there without a list of bindings ([null]
    for a port that is exposed and not bound), it ends in [t.Fatal] with
    the message of the missing list.  Nothing is returned in either
    case. *)
Theorem X4_extractIPPort_unpublished (doc0 : gmap string docker.JSON)
    (rest : list (gmap string docker.JSON)) (nw ports : gmap string docker.JSON)
    (port : string) :
  doc0 !! "NetworkSettings" = Some (docker.JObject nw) ->
  nw !! "Ports" = Some (docker.JObject ports) ->
  (ports !! (port +:+ "/tcp") = None ->
   docker.extractIPPort (doc0 :: rest) port
   = docker.Fatal "could not get network ports/tcp settings") /\
  (forall tcp, ports !! (port +:+ "/tcp") = Some tcp ->
               (forall l, tcp <> docker.JArray l) ->
               docker.extractIPPort (doc0 :: rest) port
               = docker.Fatal "could not get network ports/tcp list settings").
Proof.
  intros Hnw Hports. unfold docker.extractIPPort. rewrite Hnw, Hports. split.
  - by intros ->.
  - intros tcp -> Hnot. destruct tcp; try done. by destruct (Hnot l).
Qed.

Lemma X4_extractIPPort_unpublished_witness :
  docker.extractIPPort (docker.inspectDoc "5432" docker.JNull) "3306"
  = docker.Fatal "could not get network ports/tcp settings" /\
  docker.extractIPPort (docker.inspectDoc "5432" docker.JNull) "5432"
  = docker.Fatal "could not get network ports/tcp list settings".
Proof.
  split.
  - eapply (X4_extractIPPort_unpublished _ [] _ _ "3306");
      [apply lookup_insert_eq | apply lookup_insert_eq | reflexivity].
  - eapply (X4_extractIPPort_unpublished _ [] _ _ "5432");
      [apply lookup_insert_eq | apply lookup_insert_eq | apply lookup_insert_eq |].
    discriminate.
Defined.

(* ===================================================================== *)
(** * The database package: the query that is logged                     *)
(* ===================================================================== *)

Lemma bytes_app (s t : string) :
  database.bytes (s +:+ t) = database.bytes s ++ database.bytes t.
Proof. induction s as [|a s IH]; simpl; [done | by rewrite IH]. Qed.

Lemma string_app_nil (s : string) : "" +:+ s = s.
Proof. reflexivity. Qed.

Lemma string_app_cons (a : ascii) (s t : string) :
  String a s +:+ t = String a (s +:+ t).
Proof. reflexivity. Qed.

Lemma string_app_assoc (s t u : string) : (s +:+ t) +:+ u = s +:+ (t +:+ u).
Proof.
  induction s as [|a s IH]; [done |].
  change (String a ((s +:+ t) +:+ u) = String a (s +:+ (t +:+ u))).
  by rewrite IH.
Qed.

Lemma ReplaceAll_bytes (s : string) (old c : ascii) (new : string) :
  c ∈ database.bytes (database.ReplaceAll s old new) ->
  (c ∈ database.bytes s /\ c <> old) \/ c ∈ database.bytes new.
Proof.
  induction s as [|a s IH]; simpl; [by intros H%elem_of_nil |].
  destruct (Ascii.eqb a old) eqn:E.
  - rewrite bytes_app, elem_of_app. intros [H | H]; [by right |].
    destruct (IH H) as [[Hs Hne] | Hn]; [left | by right].
    split; [by right | done].
  - apply Ascii.eqb_neq in E. simpl. rewrite elem_of_cons. intros [-> | H].
    + left. split; [by left | done].
    + destruct (IH H) as [[Hs Hne] | Hn]; [left | by right].
      split; [by right | done].
Qed.

Lemma TrimLeft_bytes (s : string) (cut c : ascii) :
  c ∈ database.bytes (database.TrimLeft s cut) -> c ∈ database.bytes s.
Proof.
  induction s as [|a s IH]; simpl; [done |].
  destruct (Ascii.eqb a cut); [| done].
  intros H. right. by apply IH.
Qed.

Lemma TrimRight_bytes (s : string) (cut c : ascii) :
  c ∈ database.bytes (database.TrimRight s cut) -> c ∈ database.bytes s.
Proof.
  induction s as [|a s IH]; simpl; [done |].
  destruct (database.TrimRight s cut) as [|b kept].
  - destruct (Ascii.eqb a cut); simpl; [by intros H%elem_of_nil |].
    rewrite elem_of_cons. intros [-> | H%elem_of_nil]; [by left | done].
  - simpl. rewrite !elem_of_cons. intros [-> | H]; [by left |].
    right. apply IH. simpl. by rewrite elem_of_cons.
Qed.

Lemma TrimLeft_head (s : string) (cut : ascii) (rest : string) :
  database.TrimLeft s cut <> String cut rest.
Proof.
  induction s as [|a s IH]; simpl; [done |].
  destruct (Ascii.eqb a cut) eqn:E; [done |].
  apply Ascii.eqb_neq in E. congruence.
Qed.

Lemma TrimRight_head (s : string) (cut : ascii) :
  (forall rest, s <> String cut rest) ->
  forall rest, database.TrimRight s cut <> String cut rest.
Proof.
  intros Hs rest. destruct s as [|a s]; simpl; [done |].
  assert (a <> cut) as Hne by (intros ->; by apply (Hs s)).
  destruct (database.TrimRight s cut).
  - apply Ascii.eqb_neq in Hne. rewrite Hne. congruence.
  - congruence.
Qed.

Lemma TrimRight_last (s : string) (cut : ascii) (front : string) :
  database.TrimRight s cut <> front +:+ String cut EmptyString.
Proof.
  revert front. induction s as [|a s IH]; intros front; simpl.
  - by destruct front.
  - destruct (database.TrimRight s cut) as [|b kept] eqn:Et.
    + destruct (Ascii.eqb a cut) eqn:E; [by destruct front |].
      apply Ascii.eqb_neq in E.
      destruct front as [|f front];
        rewrite ?string_app_nil, ?string_app_cons; [congruence |].
      destruct front; rewrite ?string_app_nil, ?string_app_cons; congruence.
    + destruct front as [|f front];
        rewrite ?string_app_nil, ?string_app_cons.
      * congruence.
      * intros H. injection H as _ H. by apply (IH front).
Qed.

(** X5. The query that [queryString] gives for logging is one trimmed
    line: whatever the query and the values of its parameters, the result
    holds no tab and no line feed, and neither starts nor ends with a
    space. *)
Theorem X5_queryString_single_line (Sprintf_q : string -> string)
    (query : string) (params : list database.Param) :
  let logged := database.queryString Sprintf_q (inl (query, params)) in
  (database.tab ∉ database.bytes logged) /\
  (database.newline ∉ database.bytes logged) /\
  (forall rest, logged <> String " " rest) /\
  (forall front, logged <> front +:+ " ").
Proof.
  simpl. unfold database.Trim.
  split; [|split; [|split]].
  - intros H%TrimRight_bytes%TrimLeft_bytes.
    apply ReplaceAll_bytes in H as [[H _] | H].
    + apply ReplaceAll_bytes in H as [[_ H] | H]; [done | by apply elem_of_nil in H].
    + apply elem_of_cons in H as [H | H%elem_of_nil]; [discriminate | done].
  - intros H%TrimRight_bytes%TrimLeft_bytes.
    apply ReplaceAll_bytes in H as [[_ H] | H]; [done |].
    apply elem_of_cons in H as [H | H%elem_of_nil]; [discriminate | done].
  - apply TrimRight_head. intros rest. apply TrimLeft_head.
  - intros front. apply TrimRight_last.
Qed.

Lemma fill_nil (query : string) : database.fill query [] = query.
Proof.
  induction query as [|a query IH]; simpl; [done |].
  destruct (Ascii.eqb a "?"); [done | by rewrite IH].
Qed.

Lemma fill_app (v rest : string) (values : list string) :
  "?"%char ∉ database.bytes v ->
  database.fill (v +:+ rest) values = v +:+ database.fill rest values.
Proof.
  induction v as [|a v IH]; simpl; [done |].
  rewrite not_elem_of_cons. intros [Ha Hv].
  apply not_eq_sym, Ascii.eqb_neq in Ha. rewrite Ha. by rewrite IH.
Qed.

Lemma fill_ReplaceFirst (query v : string) (values : list string) :
  "?"%char ∉ database.bytes v ->
  database.fill (database.ReplaceFirst query "?" v) values
  = database.fill query (v :: values).
Proof.
  intros Hv. induction query as [|a query IH]; simpl; [done |].
  destruct (Ascii.eqb a "?") eqn:E.
  - by apply fill_app.
  - simpl. by rewrite E, IH.
Qed.

Lemma bindParams_fill (Sprintf_q : string -> string) (query : string)
    (params : list database.Param) :
  Forall (fun param => "?"%char ∉ database.bytes (database.paramValue Sprintf_q param))
         params ->
  database.bindParams Sprintf_q query params
  = database.fill query (map (database.paramValue Sprintf_q) params).
Proof.
  unfold database.bindParams. intros H. revert query.
  induction H as [|param params Hp Hall IH]; intros query; simpl.
  - by rewrite fill_nil.
  - rewrite IH. by apply fill_ReplaceFirst.
Qed.

(** X6. When no value printed for a parameter holds a question mark,
    the loop of [queryString] fills the bind variables by position: the
    i-th [?] of the query is replaced by the value of the i-th parameter,
    a [?] without a parameter stays, and parameters without a [?] are
    dropped; the result is that text without tabs, with line feeds as
    spaces, trimmed. *)
Theorem X6_queryString_fills_by_position (Sprintf_q : string -> string)
    (query : string) (params : list database.Param) :
  Forall (fun param => "?"%char ∉ database.bytes (database.paramValue Sprintf_q param))
         params ->
  database.queryString Sprintf_q (inl (query, params))
  = database.Trim
      (database.ReplaceAll
         (database.ReplaceAll
            (database.fill query (map (database.paramValue Sprintf_q) params))
            database.tab "")
         database.newline " ")
      " ".
Proof. intros H. simpl. by rewrite bindParams_fill. Qed.

Lemma X6_queryString_fills_witness :
  let params := [database.ParamString "ps@roguesecurity.in"; database.ParamOther "20"] in
  Forall (fun param =>
            "?"%char ∉ database.bytes (database.paramValue database.plainQuote param))
         params /\
  database.queryString database.plainQuote
    (inl ("SELECT * FROM users WHERE email = ? LIMIT ?", params))
  = "SELECT * FROM users WHERE email = " +:+ quoted "ps@roguesecurity.in"
    +:+ " LIMIT 20".
Proof.
  assert (Forall (fun param =>
            "?"%char ∉ database.bytes (database.paramValue database.plainQuote param))
            [database.ParamString "ps@roguesecurity.in"; database.ParamOther "20"]) as H.
  { repeat constructor; vm_compute; intros Hin;
      repeat (apply elem_of_cons in Hin as [Hin | Hin]; [discriminate Hin |]);
      by apply elem_of_nil in Hin. }
  cbv zeta. split; [exact H |].
  rewrite (X6_queryString_fills_by_position database.plainQuote
             "SELECT * FROM users WHERE email = ? LIMIT ?" _ H).
  reflexivity.
Defined.

Lemma ReplaceFirst_at (pre post new : string) :
  "?"%char ∉ database.bytes pre ->
  database.ReplaceFirst (pre +:+ String "?" post) "?" new = pre +:+ new +:+ post.
Proof.
  induction pre as [|a pre IH]; simpl; [done |].
  rewrite not_elem_of_cons. intros [Ha Hpre].
  apply not_eq_sym, Ascii.eqb_neq in Ha. rewrite Ha. by rewrite IH.
Qed.

(** X7. A value that holds a question mark takes the next parameter:
    when the value of a parameter is [u?v] (no question mark in [u]), the
    value of the parameter after it replaces the question mark inside it
    and not the next bind variable of the query. *)
Theorem X7_queryString_question_mark_in_value (Sprintf_q : string -> string)
    (pre post u v : string) (param1 param2 : database.Param) :
  "?"%char ∉ database.bytes pre ->
  "?"%char ∉ database.bytes u ->
  database.paramValue Sprintf_q param1 = u +:+ String "?" v ->
  database.bindParams Sprintf_q (pre +:+ String "?" post) [param1; param2]
  = pre +:+ u +:+ database.paramValue Sprintf_q param2 +:+ v +:+ post.
Proof.
  intros Hpre Hu Hp1. unfold database.bindParams. simpl.
  rewrite ReplaceFirst_at, Hp1 by done.
  rewrite (string_app_assoc u (String "?" v) post), string_app_cons.
  rewrite <- (string_app_assoc pre u).
  rewrite ReplaceFirst_at.
  - by rewrite !string_app_assoc.
  - rewrite bytes_app, not_elem_of_app. done.
Qed.

Lemma X7_queryString_question_mark_witness :
  ("?"%char ∉ database.bytes "name = ") /\
  ("?"%char ∉ database.bytes "why") /\
  database.bindParams database.plainQuote ("name = " +:+ String "?" " AND id = ?")
    [database.ParamOther "why?"; database.ParamOther "7"]
  = "name = why7 AND id = ?".
Proof.
  assert ("?"%char ∉ database.bytes "name = ") as H1.
  { vm_compute. intros Hin.
    repeat (apply elem_of_cons in Hin as [Hin | Hin]; [discriminate Hin |]).
    by apply elem_of_nil in Hin. }
  assert ("?"%char ∉ database.bytes "why") as H2.
  { vm_compute. intros Hin.
    repeat (apply elem_of_cons in Hin as [Hin | Hin]; [discriminate Hin |]).
    by apply elem_of_nil in Hin. }
  split; [exact H1 |]. split; [exact H2 |].
  exact (X7_queryString_question_mark_in_value database.plainQuote
           "name = " " AND id = ?" "why" ""
           (database.ParamOther "why?") (database.ParamOther "7") H1 H2 eq_refl).
Defined.

(* ===================================================================== *)
(** * The database package: waiting for the database                     *)
(* ===================================================================== *)

Lemma pingLoop_pinged (fuel : nat) (ctx : database.Done) (db : database.DB)
    (attempts : Z) (s s' : World) :
  (forall t, 0 <= database.pingTime db t) ->
  0 <= attempts ->
  database.pingLoop fuel ctx db attempts s = (database.Pinged, s') ->
  exists t, clock s <= t <= clock s' /\ database.pingAt db t = None.
Proof.
  intros Hlat. revert attempts s.
  induction fuel as [|fuel IH]; intros attempts s Hk H; simpl in H.
  - discriminate.
  - unfold bind, database.Ping in H. simpl in H.
    destruct (database.pingAt db (clock s)) as [e|] eqn:Hping.
    + unfold database.Sleep, timeNow in H. simpl in H.
      destruct (database.ErrAt ctx _) as [err|]; [discriminate |].
      apply IH in H as (t & Ht & Hp); [|lia]. simpl in Ht.
      exists t. split; [|done]. specialize (Hlat (clock s)). nia.
    + inversion H; subst. simpl. exists (clock s).
      split; [|done]. specialize (Hlat (clock s)). lia.
Qed.

(** X8. [StatusCheck] reports the database as ready only when it is:
    whenever it returns nil, one of its pings was answered without error,
    and after that ping the context was not done and the test query went
    through. *)
Theorem X8_StatusCheck_nil_sound (fuel : nat) (ctx : database.Done)
    (db : database.DB) (s s' : World) :
  (forall t, 0 <= database.pingTime db t) ->
  database.StatusCheck fuel ctx db s = (Some None, s') ->
  exists t, clock s <= t <= clock s' /\
            database.pingAt db t = None /\
            database.ErrAt ctx (clock s') = None /\
            database.queryAt db (clock s') = None.
Proof.
  intros Hlat H. unfold database.StatusCheck, bind in H.
  destruct (database.pingLoop fuel ctx db 1 s) as [ended s1] eqn:Hloop.
  destruct ended; try discriminate.
  unfold timeNow in H. simpl in H.
  destruct (database.ErrAt ctx (clock s1)) as [err|] eqn:Hctx; [discriminate |].
  unfold ret in H. injection H as Hq Hs. subst s'.
  apply pingLoop_pinged in Hloop as (t & Ht & Hp); [|done|lia].
  by exists t.
Qed.

Lemma X8_StatusCheck_nil_witness :
  let db := database.readyFrom 250 5 in
  let ctx := database.WithTimeout 0 10000 in
  (forall t, 0 <= database.pingTime db t) /\
  (database.StatusCheck 14 ctx db emptyWorld).1 = Some None /\
  exists t, 0 <= t <= clock (database.StatusCheck 14 ctx db emptyWorld).2 /\
            database.pingAt db t = None.
Proof.
  assert (forall t, 0 <= database.pingTime (database.readyFrom 250 5) t) as Hlat.
  { intros t. simpl. lia. }
  cbv zeta. split; [exact Hlat |]. split; [reflexivity |].
  destruct (X8_StatusCheck_nil_sound 14 (database.WithTimeout 0 10000)
              (database.readyFrom 250 5) emptyWorld
              (database.StatusCheck 14 (database.WithTimeout 0 10000)
                 (database.readyFrom 250 5) emptyWorld).2 Hlat eq_refl)
    as (t & Ht & Hp & _).
  exists t. split; [exact Ht | exact Hp].
Defined.

Lemma pingLoop_ends (fuel : nat) (ctx : database.Done) (db : database.DB)
    (attempts deadline : Z) (s : World) :
  (forall t, 0 <= database.pingTime db t) ->
  (forall t, deadline <= t -> database.ErrAt ctx t <> None) ->
  0 <= attempts ->
  (0 < fuel)%nat ->
  deadline - clock s <= 50 * Z.of_nat fuel * (2 * attempts + Z.of_nat fuel - 1) ->
  (database.pingLoop fuel ctx db attempts s).1 <> database.StillPinging.
Proof.
  intros Hlat Hdead. revert attempts s.
  induction fuel as [|fuel IH]; intros attempts s Hk Hfuel Hbound; [lia |].
  simpl. unfold bind, database.Ping. simpl.
  destruct (database.pingAt db (clock s)) as [e|]; [|done].
  unfold database.Sleep, timeNow. simpl.
  destruct (database.ErrAt ctx _) as [err|] eqn:Hctx; [done |].
  assert (clock s + database.pingTime db (clock s) + attempts * 100 < deadline) as Hlt.
  { destruct (Z_lt_le_dec (clock s + database.pingTime db (clock s) + attempts * 100)
                          deadline) as [|Hge]; [done |].
    by apply Hdead in Hge. }
  specialize (Hlat (clock s)).
  apply IH; simpl; [lia | nia | nia].
Qed.

(** X9. Under a context with a deadline, [StatusCheck] gives up after a
    bounded number of pings: it sleeps 100 ms more after each failed
    ping, so [n] pings are enough as soon as [50 * n * (n + 1)] ms reach
    the deadline; with that fuel it returns, ready or not. *)
Theorem X9_StatusCheck_bounded_pings (n : nat) (ctx : database.Done)
    (db : database.DB) (deadline : Z) (s : World) :
  (forall t, 0 <= database.pingTime db t) ->
  (forall t, deadline <= t -> database.ErrAt ctx t <> None) ->
  (0 < n)%nat ->
  deadline - clock s <= 50 * Z.of_nat n * (Z.of_nat n + 1) ->
  (database.StatusCheck n ctx db s).1 <> None.
Proof.
  intros Hlat Hdead Hn Hbound. unfold database.StatusCheck, bind.
  pose proof (pingLoop_ends n ctx db 1 deadline s Hlat Hdead) as Hloop.
  destruct (database.pingLoop n ctx db 1 s) as [ended s1].
  destruct ended; simpl in *.
  - unfold timeNow. simpl. by destruct (database.ErrAt ctx (clock s1)).
  - done.
  - exfalso. apply Hloop; [lia | done | nia | done].
Qed.

Lemma X9_StatusCheck_bounded_witness :
  let db := database.readyFrom 60000 5 in
  let ctx := database.WithTimeout 0 10000 in
  (forall t, 0 <= database.pingTime db t) /\
  (forall t, 10000 <= t -> database.ErrAt ctx t <> None) /\
  (0 < 14)%nat /\
  10000 - clock emptyWorld <= 50 * Z.of_nat 14 * (Z.of_nat 14 + 1) /\
  (database.StatusCheck 14 ctx db emptyWorld).1 <> None /\
  (database.StatusCheck 14 ctx db emptyWorld).1 = Some (Some database.DeadlineExceeded).
Proof.
  assert (forall t, 0 <= database.pingTime (database.readyFrom 60000 5) t) as H1.
  { intros t. simpl. lia. }
  assert (forall t, 10000 <= t ->
                    database.ErrAt (database.WithTimeout 0 10000) t <> None) as H2.
  { intros t Ht. simpl. destruct (0 + 10000 <=? t) eqn:E; [done |].
    apply Z.leb_gt in E. lia. }
  assert (0 < 14)%nat as H3 by lia.
  assert (10000 - clock emptyWorld <= 50 * Z.of_nat 14 * (Z.of_nat 14 + 1)) as H4.
  { simpl. lia. }
  cbv zeta. split; [exact H1 |]. split; [exact H2 |]. split; [exact H3 |].
  split; [exact H4 |].
  split; [|reflexivity].
  exact (X9_StatusCheck_bounded_pings 14 (database.WithTimeout 0 10000)
           (database.readyFrom 60000 5) 10000 emptyWorld H1 H2 H3 H4).
Defined.



(* ===================================================================== *)
(** * Authenticate and Authorize together                                *)
(* ===================================================================== *)




(* ===================================================================== *)
(** * A request through the whole chain                                  *)
(* ===================================================================== *)

(** The world in which the part of the chain inside [Errors] starts. *)
Lemma service_error_run (m : gmap (string * string) HandlerFunc)
    (log1 log2 : SugaredLogger) (rest routeMw : list Middleware) (handler : Handler)
    (w : ResponseWriter) (r : Request) (s s1 : World) (err : error) :
  wrapMiddleware (rest ++ routeMw) handler (requestContext r s) w r
    (addLogs (requestWorld r s)
             [startedEntry log1 (length (heap s)) r (requestWorld r s)])
  = (Some err, s1) ->
  baseHandler (routeChain (mkApp m (Logger log1 :: Errors log2 :: rest)) handler routeMw)
              w r s
  = (tt,
     let s2 := answeredWorld log2 (length (heap s)) w err s1 in
     let s3 := addLogs s2 [completedEntry log1 (length (heap s)) r s2] in
     match answeredResult w err s1 with
     | Some _ => signalled s3
     | None => s3
     end).
Proof.
  intros Hin.
  rewrite baseHandler_run, salesChain_run, loggerBody_run.
  rewrite (errorsBody_error log2 (length (heap s)) _ _ w r _ s1 err)
    by (done || apply GetValues_requestContext).
  by destruct (answeredResult w err s1).
Qed.

Lemma service_ok_run (m : gmap (string * string) HandlerFunc)
    (log1 log2 : SugaredLogger) (rest routeMw : list Middleware) (handler : Handler)
    (w : ResponseWriter) (r : Request) (s s1 : World) :
  wrapMiddleware (rest ++ routeMw) handler (requestContext r s) w r
    (addLogs (requestWorld r s)
             [startedEntry log1 (length (heap s)) r (requestWorld r s)])
  = (None, s1) ->
  baseHandler (routeChain (mkApp m (Logger log1 :: Errors log2 :: rest)) handler routeMw)
              w r s
  = (tt, addLogs s1 [completedEntry log1 (length (heap s)) r s1]).
Proof.
  intros Hin.
  rewrite baseHandler_run, salesChain_run, loggerBody_run.
  by rewrite (errorsBody_ok log2 (length (heap s)) _ _ w r _ s1).
Qed.

(** A request that the part of the chain inside [Errors] rejects without
    touching the world: one response, three log lines, no signal. *)
Lemma service_rejected (m : gmap (string * string) HandlerFunc)
    (log1 log2 : SugaredLogger) (routeMw : list Middleware) (handler : Handler)
    (w : ResponseWriter) (r : Request) (s : World) (e : error) (status : Z) :
  let s0 := addLogs (requestWorld r s)
                    [startedEntry log1 (length (heap s)) r (requestWorld r s)] in
  wrapMiddleware routeMw handler (requestContext r s) w r s0
  = (Some (RequestError e status), s0) ->
  writeErr (writers s !!! w) = None ->
  let sF := (baseHandler
               (routeChain (mkApp m [Logger log1; Errors log2]) handler routeMw) w r s).2 in
  responses w sF
  = responses w s ++ [mkResponse status (ErrorPayload (mkErrorResponse (Error e) ""))] /\
  shutdown sF = shutdown s /\
  map logMsg (drop (length (logs s)) (logs sF))
  = ["request started"; "ERROR"; "request completed"] /\
  StatusCode (valuesAt (length (heap s)) sF) = status.
Proof.
  intros s0 Hin Hw sF. subst sF.
  rewrite (service_error_run m log1 log2 [] routeMw handler w r s s0
             (RequestError e status)) by exact Hin.
  unfold answeredResult. change (writers s0) with (writers s). rewrite Hw.
  change (IsShutdown (RequestError e status)) with false. cbv zeta.
  split; [|split; [|split]].
  - unfold responses. simpl. by rewrite lookup_total_insert_eq.
  - reflexivity.
  - simpl. rewrite <- !app_assoc, drop_app_length. reflexivity.
  - unfold valuesAt. simpl.
    rewrite list_lookup_insert_eq by (rewrite length_app; simpl; lia).
    reflexivity.
Qed.

(** X12. With [Logger] and [Errors] as the middleware of the application
    and a route that starts with [Authenticate], a request whose
    Authorization header is not [bearer <token>] is answered exactly once,
    with status 401 and the message of the expected format; the status is
    recorded for the log, three lines are logged, no shutdown is
    signalled, and neither the rest of the route nor the handler has any
    part in it. *)
Theorem X12_unauthenticated_request (m : gmap (string * string) HandlerFunc)
    (log1 log2 : SugaredLogger) (a : Auth) (routeRest : list Middleware)
    (handler : Handler) (w : ResponseWriter) (r : Request) (s : World) :
  headerRejected (Header_Get (Header r) "authorization") = true ->
  writeErr (writers s !!! w) = None ->
  let sF := (baseHandler
               (routeChain (mkApp m [Logger log1; Errors log2]) handler
                           (Authenticate a :: routeRest)) w r s).2 in
  responses w sF
  = responses w s
    ++ [mkResponse 401
          (ErrorPayload
             (mkErrorResponse "expected authorization header format: bearer <token>" ""))] /\
  shutdown sF = shutdown s /\
  map logMsg (drop (length (logs s)) (logs sF))
  = ["request started"; "ERROR"; "request completed"] /\
  StatusCode (valuesAt (length (heap s)) sF) = 401.
Proof.
  intros Hrej Hw.
  apply (service_rejected m log1 log2 (Authenticate a :: routeRest) handler w r s
           (errorString "expected authorization header format: bearer <token>") 401);
    [|exact Hw].
  rewrite wrapMiddleware_cons. by apply Authenticate_rejected.
Qed.

Lemma X12_unauthenticated_request_witness :
  let r := requestWith ["Basic dXNlcjpwYXNz"] in
  let a := oneTokenAuth "good" adminClaims in
  headerRejected (Header_Get (Header r) "authorization") = true /\
  writeErr (writers emptyWorld !!! 0%nat) = None /\
  responses 0%nat
    (baseHandler (routeChain salesApp (Test 1) [Authenticate a; Authorize ["ADMIN"]])
                 0%nat r emptyWorld).2
  = [mkResponse 401
       (ErrorPayload
          (mkErrorResponse "expected authorization header format: bearer <token>" ""))].
Proof.
  cbv zeta. split; [reflexivity |]. split; [reflexivity |].
  exact (proj1 (X12_unauthenticated_request ∅ "SALES-API" "SALES-API"
                  (oneTokenAuth "good" adminClaims) [Authorize ["ADMIN"]] (Test 1)
                  0%nat (requestWith ["Basic dXNlcjpwYXNz"]) emptyWorld
                  eq_refl eq_refl)).
Defined.

(** X13. With [Logger] and [Errors] as the middleware of the application
    and a route behind [Authenticate] and [Authorize], a request with a
    valid token whose claims are not authorized for the roles of the route
    is answered exactly once, with status 403 and a message that names the
    roles of the claims and the roles asked for; no shutdown is signalled
    and the handler does not run. *)
Theorem X13_forbidden_request (m : gmap (string * string) HandlerFunc)
    (log1 log2 : SugaredLogger) (a : Auth) (roles : list string)
    (routeRest : list Middleware) (handler : Handler) (w : ResponseWriter)
    (r : Request) (s : World) (scheme token : string) (claims : Claims) :
  Header_Get (Header r) "authorization" = scheme +:+ " " +:+ token ->
  noSpace scheme -> noSpace token -> spelledAs scheme "bearer" ->
  ValidateToken a (clock s) token = inl claims ->
  Authorized claims roles = false ->
  writeErr (writers s !!! w) = None ->
  let sF := (baseHandler
               (routeChain (mkApp m [Logger log1; Errors log2]) handler
                           (Authenticate a :: Authorize roles :: routeRest)) w r s).2 in
  responses w sF
  = responses w s
    ++ [mkResponse 403
          (ErrorPayload
             (mkErrorResponse
                ("you are not authorized for that action, claims["
                 +:+ fmtSlice (Roles claims) +:+ "] roles[" +:+ fmtSlice roles +:+ "]")
                ""))] /\
  shutdown sF = shutdown s /\
  map logMsg (drop (length (logs s)) (logs sF))
  = ["request started"; "ERROR"; "request completed"] /\
  StatusCode (valuesAt (length (heap s)) sF) = 403.
Proof.
  intros Hh Hs Ht Hb Hv Hauth Hw.
  apply (service_rejected m log1 log2 (Authenticate a :: Authorize roles :: routeRest)
           handler w r s
           (errorString ("you are not authorized for that action, claims["
                         +:+ fmtSlice (Roles claims) +:+ "] roles["
                         +:+ fmtSlice roles +:+ "]")) 403);
    [|exact Hw].
  rewrite !wrapMiddleware_cons.
  rewrite (Authenticate_accepted a _ _ w r _ scheme token) by done.
  change (clock (addLogs (requestWorld r s) _)) with (clock s). rewrite Hv.
  unfold Authorize. simpl. by rewrite Hauth.
Qed.

Lemma X13_forbidden_request_witness :
  let r := requestWith ["Bearer good"] in
  let a := oneTokenAuth "good" userClaims in
  Header_Get (Header r) "authorization" = "Bearer" +:+ " " +:+ "good" /\
  noSpace "Bearer" /\ noSpace "good" /\ spelledAs "Bearer" "bearer" /\
  ValidateToken a (clock emptyWorld) "good" = inl userClaims /\
  Authorized userClaims ["ADMIN"] = false /\
  writeErr (writers emptyWorld !!! 0%nat) = None /\
  responses 0%nat
    (baseHandler (routeChain salesApp (Test 1) [Authenticate a; Authorize ["ADMIN"]])
                 0%nat r emptyWorld).2
  = [mkResponse 403
       (ErrorPayload
          (mkErrorResponse
             "you are not authorized for that action, claims[[USER]] roles[[ADMIN]]" ""))].
Proof.
  assert (noSpace "Bearer") as H1 by (simpl; repeat split; discriminate).
  assert (noSpace "good") as H2 by (simpl; repeat split; discriminate).
  assert (spelledAs "Bearer" "bearer") as H3.
  { simpl. repeat split; try (by left). right. vm_compute. repeat split; discriminate. }
  cbv zeta. split; [reflexivity |]. split; [exact H1 |]. split; [exact H2 |].
  split; [exact H3 |]. split; [reflexivity |]. split; [reflexivity |].
  split; [reflexivity |].
  exact (proj1 (X13_forbidden_request ∅ "SALES-API" "SALES-API"
                  (oneTokenAuth "good" userClaims) ["ADMIN"] [] (Test 1) 0%nat
                  (requestWith ["Bearer good"]) emptyWorld "Bearer" "good" userClaims
                  eq_refl H1 H2 H3 eq_refl eq_refl eq_refl)).
Defined.

(** X14. The status in the log is the status that was answered: when the
    chain inside [Errors] returns an error, the line [request completed]
    that [Logger] writes last carries, as its status code, the status of
    the response that [Errors] wrote for the error, since both reach the
    same values of the request through the context. *)
Theorem X14_logged_status_is_answered_status
    (m : gmap (string * string) HandlerFunc) (log1 log2 : SugaredLogger)
    (rest routeMw : list Middleware) (handler : Handler) (w : ResponseWriter)
    (r : Request) (s s1 : World) (err : error) :
  wrapMiddleware (rest ++ routeMw) handler (requestContext r s) w r
    (addLogs (requestWorld r s)
             [startedEntry log1 (length (heap s)) r (requestWorld r s)])
  = (Some err, s1) ->
  (length (heap s) < length (heap s1))%nat ->
  let sF := (baseHandler
               (routeChain (mkApp m (Logger log1 :: Errors log2 :: rest)) handler routeMw)
               w r s).2 in
  exists entry,
    last (logs sF) = Some entry /\
    logLogger entry = log1 /\
    logMsg entry = "request completed" /\
    ("statuscode", LogInt (errorResponse err).2) ∈ logFields entry /\
    last (responses w sF)
    = Some (mkResponse (errorResponse err).2 (ErrorPayload (errorResponse err).1)).
Proof.
  intros Hin Hlen sF. subst sF.
  rewrite (service_error_run m log1 log2 rest routeMw handler w r s s1 err) by exact Hin.
  cbv zeta.
  set (s2 := answeredWorld log2 (length (heap s)) w err s1).
  exists (completedEntry log1 (length (heap s)) r s2).
  assert (StatusCode (valuesAt (length (heap s)) s2) = (errorResponse err).2) as Hst.
  { unfold s2, valuesAt, answeredWorld. simpl.
    by rewrite list_lookup_insert_eq. }
  assert (responses w s2
          = responses w s1 ++ [mkResponse (errorResponse err).2
                                          (ErrorPayload (errorResponse err).1)]) as Hresp.
  { apply responses_answeredWorld. }
  destruct (answeredResult w err s1); simpl.
  - split; [by rewrite last_snoc |]. split; [done |]. split; [done |].
    split; [rewrite Hst; set_solver |].
    change (responses w _) with (responses w s2). by rewrite Hresp, last_snoc.
  - split; [by rewrite last_snoc |]. split; [done |]. split; [done |].
    split; [rewrite Hst; set_solver |].
    change (responses w _) with (responses w s2). by rewrite Hresp, last_snoc.
Qed.

Lemma X14_logged_status_witness :
  let err := RequestError (errorString "token is expired") 401 in
  let s := emptyWorld in
  let r := testRequest in
  wrapMiddleware ([] ++ []) (failingHandler err) (requestContext r s) 0%nat r
    (addLogs (requestWorld r s)
             [startedEntry "SALES-API" (length (heap s)) r (requestWorld r s)])
  = (Some err,
     addLogs (requestWorld r s)
             [startedEntry "SALES-API" (length (heap s)) r (requestWorld r s)]) /\
  (length (heap s) < length (heap (requestWorld r s)))%nat /\
  exists entry,
    last (logs (baseHandler (routeChain salesApp (failingHandler err) []) 0%nat r s).2)
    = Some entry /\
    ("statuscode", LogInt 401) ∈ logFields entry.
Proof.
  cbv zeta. split; [reflexivity |]. split; [simpl; lia |].
  destruct (X14_logged_status_is_answered_status ∅ "SALES-API" "SALES-API" [] []
              (failingHandler (RequestError (errorString "token is expired") 401))
              0%nat testRequest emptyWorld _
              (RequestError (errorString "token is expired") 401) eq_refl
              ltac:(simpl; lia))
    as (entry & Hlast & _ & _ & Hin & _).
  exists entry. split; [exact Hlast | exact Hin].
Defined.

(** X15. The test route under [Logger] and [Errors]: for every draw, the
    request is answered exactly once and no shutdown is signalled, as long
    as the response can be written.  An even draw gives status 500 with
    the fixed text [Internal Server Error], and the untrusted error is in
    the log; an odd draw gives status 200 with the status document. *)
Theorem X15_Test_route (m : gmap (string * string) HandlerFunc)
    (log1 log2 : SugaredLogger) (n : Z) (w : ResponseWriter) (r : Request) (s : World) :
  writeErr (writers s !!! w) = None ->
  let sF := (baseHandler (routeChain (mkApp m [Logger log1; Errors log2]) (Test n) [])
                         w r s).2 in
  shutdown sF = shutdown s /\
  if Z.rem n 2 =? 0 then
    responses w sF
    = responses w s
      ++ [mkResponse 500 (ErrorPayload (mkErrorResponse "Internal Server Error" ""))] /\
    ("ERROR", LogError (errorString "untrusted error"))
      ∈ concat (map logFields (logs sF))
  else
    responses w sF
    = responses w s
      ++ [mkResponse 200
            (DataPayload ("{" +:+ quoted "Status" +:+ ":" +:+ quoted "OK" +:+ "}"))].
Proof.
  intros Hw sF. subst sF.
  destruct (Z.rem n 2 =? 0) eqn:Hdraw.
  - rewrite (service_error_run m log1 log2 [] [] (Test n) w r s
               (addLogs (requestWorld r s)
                        [startedEntry log1 (length (heap s)) r (requestWorld r s)])
               (errorString "untrusted error")).
    2:{ simpl. unfold Test. by rewrite Hdraw. }
    unfold answeredResult. simpl writers. rewrite Hw. simpl.
    split; [done |]. split.
    + unfold responses. simpl. by rewrite lookup_total_insert_eq.
    + rewrite !map_app, !concat_app. simpl. set_solver.
  - rewrite baseHandler_run, salesChain_run, loggerBody_run.
    unfold errorsBody, bind. simpl. unfold Test. rewrite Hdraw.
    unfold Respond, SetStatusCode, bind. simpl.
    unfold storeStatusCode, writeResponse, bind, ret. simpl. rewrite Hw. simpl.
    split; [done |].
    unfold responses. simpl. by rewrite lookup_total_insert_eq.
Qed.

Lemma X15_Test_route_witness :
  writeErr (writers emptyWorld !!! 0%nat) = None /\
  responses 0%nat (baseHandler (routeChain salesApp (Test 42) []) 0%nat testRequest
                               emptyWorld).2
  = [mkResponse 500 (ErrorPayload (mkErrorResponse "Internal Server Error" ""))].
Proof.
  split; [reflexivity |].
  exact (proj1 (proj2 (X15_Test_route ∅ "SALES-API" "SALES-API" 42 0%nat testRequest
                         emptyWorld eq_refl))).
Defined.

(** X16. A response that cannot be written shuts the service down: when
    the chain inside [Errors] returns an error, whatever it is, and the
    writer reports an error for the response, the base handler of the
    route signals shutdown once; the response was handed to the writer
    all the same. *)
Theorem X16_write_failure_signals_shutdown
    (m : gmap (string * string) HandlerFunc) (log1 log2 : SugaredLogger)
    (rest routeMw : list Middleware) (handler : Handler) (w : ResponseWriter)
    (r : Request) (s s1 : World) (err werr : error) :
  wrapMiddleware (rest ++ routeMw) handler (requestContext r s) w r
    (addLogs (requestWorld r s)
             [startedEntry log1 (length (heap s)) r (requestWorld r s)])
  = (Some err, s1) ->
  writeErr (writers s1 !!! w) = Some werr ->
  let sF := (baseHandler
               (routeChain (mkApp m (Logger log1 :: Errors log2 :: rest)) handler routeMw)
               w r s).2 in
  shutdown sF = shutdown s1 ++ [SIGTERM] /\
  responses w sF
  = responses w s1 ++ [mkResponse (errorResponse err).2
                                  (ErrorPayload (errorResponse err).1)].
Proof.
  intros Hin Hw sF. subst sF.
  rewrite (service_error_run m log1 log2 rest routeMw handler w r s s1 err) by exact Hin.
  unfold answeredResult. rewrite Hw. cbv zeta. split; [reflexivity |].
  apply (responses_answeredWorld log2 (length (heap s)) w err s1).
Qed.

Lemma X16_write_failure_witness :
  let err := RequestError (errorString "token is expired") 401 in
  let s := brokenWriterWorld in
  let r := testRequest in
  let s0 := addLogs (requestWorld r s)
                    [startedEntry "SALES-API" (length (heap s)) r (requestWorld r s)] in
  wrapMiddleware ([] ++ []) (failingHandler err) (requestContext r s) 0%nat r s0
  = (Some err, s0) /\
  writeErr (writers s0 !!! 0%nat) = Some brokenPipe /\
  shutdown (baseHandler (routeChain salesApp (failingHandler err) []) 0%nat r s).2
  = [SIGTERM].
Proof.
  cbv zeta. split; [reflexivity |]. split; [reflexivity |].
  exact (proj1 (X16_write_failure_signals_shutdown ∅ "SALES-API" "SALES-API" [] []
                  (failingHandler (RequestError (errorString "token is expired") 401))
                  0%nat testRequest brokenWriterWorld _
                  (RequestError (errorString "token is expired") 401) brokenPipe
                  eq_refl eq_refl)).
Defined.

Lemma errorResponse_shutdown (err : error) :
  IsShutdown err = true ->
  errorResponse err = (mkErrorResponse "Internal Server Error" "", 500).
Proof.
  unfold IsShutdown, errorResponse. by destruct (Cause err).
Qed.

(** X17. A shutdown error always reaches the shutdown channel: when the
    chain inside [Errors] returns a shutdown error, the client is answered
    with status 500 and the fixed text, never with the message of the
    error, and the base handler signals shutdown once, whether or not the
    response could be written. *)
Theorem X17_shutdown_error_always_signals
    (m : gmap (string * string) HandlerFunc) (log1 log2 : SugaredLogger)
    (rest routeMw : list Middleware) (handler : Handler) (w : ResponseWriter)
    (r : Request) (s s1 : World) (err : error) :
  wrapMiddleware (rest ++ routeMw) handler (requestContext r s) w r
    (addLogs (requestWorld r s)
             [startedEntry log1 (length (heap s)) r (requestWorld r s)])
  = (Some err, s1) ->
  IsShutdown err = true ->
  let sF := (baseHandler
               (routeChain (mkApp m (Logger log1 :: Errors log2 :: rest)) handler routeMw)
               w r s).2 in
  shutdown sF = shutdown s1 ++ [SIGTERM] /\
  responses w sF
  = responses w s1
    ++ [mkResponse 500 (ErrorPayload (mkErrorResponse "Internal Server Error" ""))].
Proof.
  intros Hin Hsd sF. subst sF.
  rewrite (service_error_run m log1 log2 rest routeMw handler w r s s1 err) by exact Hin.
  cbv zeta. split.
  - unfold answeredResult. rewrite Hsd.
    by destruct (writeErr (writers s1 !!! w)).
  - assert (responses w (answeredWorld log2 (length (heap s)) w err s1)
            = responses w s1
              ++ [mkResponse 500 (ErrorPayload (mkErrorResponse "Internal Server Error" ""))])
      as Hresp.
    { rewrite responses_answeredWorld. by rewrite (errorResponse_shutdown err Hsd). }
    by destruct (answeredResult w err s1).
Qed.

Lemma X17_shutdown_error_witness :
  let err := wrapError "query users" (shutdownError "integrity issue") in
  let s := emptyWorld in
  let r := testRequest in
  let s0 := addLogs (requestWorld r s)
                    [startedEntry "SALES-API" (length (heap s)) r (requestWorld r s)] in
  wrapMiddleware ([] ++ []) (failingHandler err) (requestContext r s) 0%nat r s0
  = (Some err, s0) /\
  IsShutdown err = true /\
  shutdown (baseHandler (routeChain salesApp (failingHandler err) []) 0%nat r s).2
  = [SIGTERM] /\
  responses 0%nat (baseHandler (routeChain salesApp (failingHandler err) []) 0%nat r s).2
  = [mkResponse 500 (ErrorPayload (mkErrorResponse "Internal Server Error" ""))].
Proof.
  cbv zeta. split; [reflexivity |]. split; [reflexivity |].
  exact (X17_shutdown_error_always_signals ∅ "SALES-API" "SALES-API" [] []
           (failingHandler (wrapError "query users" (shutdownError "integrity issue")))
           0%nat testRequest emptyWorld _
           (wrapError "query users" (shutdownError "integrity issue"))
           eq_refl eq_refl).
Defined.
